(** * mcp-graphdb: resource addressing and query dispatch of [src/index.ts]

    A shallow embedding of the request handlers of the GraphDB MCP server
    that talk to the repository (list resources, read resource, call tool)
    and of the helper [executeSparqlQuery], followed by the properties of
    the specification that concern them.

    Conventions of the embedding.
    - Text is a [string] of bytes, read as the UTF-8 encoding of the
      JavaScript string.  Searching for an ASCII pattern finds the same
      occurrence in both encodings, so [indexOf] and [substring] cut a text
      at the same place; their indices count bytes here.
    - An [async] function is a tree of type [Async]: it returns, throws,
      awaits [fetch] or writes to the console.  [run] plays such a tree
      against a network that answers every request.
    - What a statement can throw is carried by [Completion]. *)

From Stdlib Require Import String Ascii List ZArith Lia Bool DecimalString.
Import ListNotations.
Local Open Scope string_scope.
Local Set Warnings "-register-all".

(** ** JavaScript values, errors and completions *)

(** The values a JSON request can carry in [request.params.arguments]
    (typed [unknown] by the SDK), and [undefined] for an absent one.
    Of the numbers only the integers are modelled, printed in plain decimal
    notation, as JavaScript prints those below 10^21. *)
Inductive JsVal : Type :=
| JUndefined
| JNull
| JBool (b : bool)
| JNum (n : Z)
| JStr (s : string)
| JArr (elems : list JsVal)
| JObj (props : list (string * JsVal)).

(** ToBoolean, as used by [&&], [||], [!] and [if]. *)
Definition truthy (v : JsVal) : bool :=
  match v with
  | JUndefined | JNull => false
  | JBool b => b
  | JNum n => negb (n =? 0)%Z
  | JStr s => negb (s =? "")
  | JArr _ | JObj _ => true
  end.

(** ToString, as applied by a template literal to an interpolated value. *)
Fixpoint ToString (v : JsVal) : string :=
  match v with
  | JUndefined => "undefined"
  | JNull => "null"
  | JBool true => "true"
  | JBool false => "false"
  | JNum n => NilZero.string_of_int (Z.to_int n)
  | JStr s => s
  | JArr elems =>
      (fix join (l : list JsVal) : string :=
         match l with
         | [] => ""
         | x :: rest =>
             let sx := match x with
                       | JUndefined | JNull => ""
                       | _ => ToString x
                       end in
             match rest with
             | [] => sx
             | _ :: _ => sx ++ "," ++ join rest
             end
         end) elems
  | JObj _ => "[object Object]"
  end.

(** [v === s] for a string literal [s]. *)
Definition strict_eq_str (v : JsVal) (s : string) : bool :=
  match v with
  | JStr t => t =? s
  | _ => false
  end.

(** A thrown value: every one thrown here is an [Error] object, of which
    only the constructor name and the message are observed. *)
Record JsError : Type := mkJsError { err_name : string; err_message : string }.

Definition Error (msg : string) : JsError := mkJsError "Error" msg.
Definition TypeError (msg : string) : JsError := mkJsError "TypeError" msg.

(** The completion of a synchronous evaluation: a value or a throw. *)
Inductive Completion (A : Type) : Type :=
| Normal (a : A)
| Throw (e : JsError).
Arguments Normal {A} a.
Arguments Throw {A} e.

Definition cbind {A B : Type} (c : Completion A) (f : A -> Completion B)
  : Completion B :=
  match c with
  | Normal a => f a
  | Throw e => Throw e
  end.

Declare Scope completion_scope.
Delimit Scope completion_scope with completion.
Notation "x <~ c ;; k" := (cbind c (fun x => k))
  (at level 100, c at next level, right associativity) : completion_scope.

(** ** Strings: the methods of [String.prototype] the handlers call *)

(** [indexOf] scanning from byte [i]: the first position at which [pat]
    is a prefix of what remains. *)
Fixpoint index_from (pat s : string) (i : nat) : option nat :=
  if prefix pat s then Some i
  else match s with
       | EmptyString => None
       | String _ s' => index_from pat s' (S i)
       end.

(** [s.indexOf(pat)]: the position of the first occurrence, or -1. *)
Definition indexOf (s pat : string) : Z :=
  match index_from pat s 0 with
  | Some i => Z.of_nat i
  | None => (-1)%Z
  end.

(** [s.includes(pat)]. *)
Definition includes (s pat : string) : bool :=
  match index_from pat s 0 with
  | Some _ => true
  | None => false
  end.

(** [s.substring(0, n)] and [s.substring(n)] for [0 <= n]; an [n] beyond
    the end is clamped to the length, as JavaScript does. *)
Fixpoint take (n : nat) (s : string) : string :=
  match n, s with
  | S n', String c s' => String c (take n' s')
  | _, _ => ""
  end.

Fixpoint drop (n : nat) (s : string) : string :=
  match n, s with
  | S n', String _ s' => drop n' s'
  | _, _ => s
  end.

Definition substring_to (s : string) (n : Z) : string := take (Z.to_nat n) s.
Definition substring_from (s : string) (n : Z) : string := drop (Z.to_nat n) s.

(** [s.split(sep)] for a one-character separator. *)
Fixpoint split (sep : ascii) (s : string) : list string :=
  match s with
  | EmptyString => [""]
  | String c s' =>
      if Ascii.eqb c sep then "" :: split sep s'
      else match split sep s' with
           | [] => [String c ""]
           | w :: ws => String c w :: ws
           end
  end.

(** [Array.prototype.includes] and [indexOf] with a string argument, for a
    receiver that is an array: membership of that very string. *)
Definition arr_includes (l : list JsVal) (s : string) : bool :=
  existsb (fun v => strict_eq_str v s) l.

Fixpoint arr_index_from (l : list JsVal) (s : string) (i : nat) : option nat :=
  match l with
  | [] => None
  | v :: l' => if strict_eq_str v s then Some i else arr_index_from l' s (S i)
  end.

Definition arr_indexOf (l : list JsVal) (s : string) : Z :=
  match arr_index_from l s 0 with
  | Some i => Z.of_nat i
  | None => (-1)%Z
  end.

(** Decimal rendering of a number such as [response.status]. *)
Definition string_of_nat (n : nat) : string :=
  NilZero.string_of_uint (Nat.to_uint n).

(** ** SPARQL results, as declared by the interfaces of the source *)

(** The value of one variable in a row ([SparqlBinding]'s member type). *)
Record SparqlTerm : Type := mkTerm {
  type : string;
  value : string;
  datatype : option string;
  xml_lang : option string
}.

(** A JavaScript object used as a record of named members: the keys in
    insertion order.  A lookup that finds nothing yields [undefined]. *)
Definition JsObject (V : Type) : Type := list (string * V).

Fixpoint get_prop {V : Type} (o : JsObject V) (k : string) : option V :=
  match o with
  | [] => None
  | (k', v) :: o' => if k' =? k then Some v else get_prop o' k
  end.

(** [o[k] = v]: an existing key keeps its place, a new one goes last. *)
Fixpoint set_prop {V : Type} (o : JsObject V) (k : string) (v : V)
  : JsObject V :=
  match o with
  | [] => [(k, v)]
  | (k', v') :: o' =>
      if k' =? k then (k', v) :: o' else (k', v') :: set_prop o' k v
  end.

Definition SparqlBinding : Type := JsObject SparqlTerm.

Record SparqlHead : Type := mkHead {
  vars : list string;
  link : option (list string)
}.

Record SparqlRows : Type := mkRows { bindings : list SparqlBinding }.

Record SparqlResults : Type := mkResults {
  head : SparqlHead;
  results : SparqlRows
}.

(** ** The network: [fetch] and its response *)

Record RequestInit : Type := mkInit {
  method : string;
  headers : JsObject string;
  body : JsVal
}.

(** A response, with what reading its body as JSON ([response.json()],
    cast to [SparqlResults]) and as text ([response.text()]) gives. *)
Record Response : Type := mkResponse {
  ok : bool;
  status : nat;
  statusText : string;
  json : Completion SparqlResults;
  text : Completion string
}.

(** [await fetch(..)] either rejects or resolves to a response. *)
Inductive FetchOutcome : Type :=
| Rejected (e : JsError)
| Resolved (r : Response).

(** ** Asynchronous functions *)

Inductive Async (A : Type) : Type :=
| Return (a : A)
| Raise (e : JsError)
| Fetch (url : string) (init : RequestInit) (k : FetchOutcome -> Async A)
| ConsoleError (label : string) (e : JsError) (k : Async A).
Arguments Return {A} a.
Arguments Raise {A} e.
Arguments Fetch {A} url init k.
Arguments ConsoleError {A} label e k.

Fixpoint bind {A B : Type} (p : Async A) (f : A -> Async B) : Async B :=
  match p with
  | Return a => f a
  | Raise e => Raise e
  | Fetch url init k => Fetch url init (fun o => bind (k o) f)
  | ConsoleError l e k => ConsoleError l e (bind k f)
  end.

(** [try { p } catch (error) { h error }]. *)
Fixpoint try_catch {A : Type} (p : Async A) (h : JsError -> Async A) : Async A :=
  match p with
  | Return a => Return a
  | Raise e => h e
  | Fetch url init k => Fetch url init (fun o => try_catch (k o) h)
  | ConsoleError l e k => ConsoleError l e (try_catch k h)
  end.

(** A synchronous evaluation inside an asynchronous function. *)
Definition lift {A : Type} (c : Completion A) : Async A :=
  match c with
  | Normal a => Return a
  | Throw e => Raise e
  end.

(** [await fetch(url, init)]. *)
Definition fetch (url : string) (init : RequestInit) : Async Response :=
  Fetch url init (fun o =>
    match o with
    | Rejected e => Raise e
    | Resolved r => Return r
    end).

Declare Scope async_scope.
Delimit Scope async_scope with async.
Notation "x <- p ;; k" := (bind p (fun x => k))
  (at level 100, p at next level, right associativity) : async_scope.
Local Open Scope async_scope.

(** What a run lets an observer see, in order. *)
Inductive Event : Type :=
| EFetch (url : string) (init : RequestInit)
| EConsoleError (label : string) (e : JsError).

(** A network answers the [n]-th request of a run. *)
Definition Network : Type := nat -> string -> RequestInit -> FetchOutcome.

Fixpoint run {A : Type} (p : Async A) (net : Network) (n : nat)
  : list Event * Completion A :=
  match p with
  | Return a => ([], Normal a)
  | Raise e => ([], Throw e)
  | Fetch url init k =>
      let (evs, c) := run (k (net n url init)) net (S n) in
      (EFetch url init :: evs, c)
  | ConsoleError l e k =>
      let (evs, c) := run k net n in
      (EConsoleError l e :: evs, c)
  end.

(** The requests among the events of a run. *)
Definition is_fetch (ev : Event) : bool :=
  match ev with
  | EFetch _ _ => true
  | EConsoleError _ _ => false
  end.

Definition fetches (evs : list Event) : list Event := filter is_fetch evs.

(** ** The query texts

    Each is the template literal of the source, line by line; [LF] is the
    line break, and the indentation is the literal's own. *)

Definition LF : string := String (ascii_of_nat 10) "".

(** The graph-discovery query of the resource listing (lines 134-140). *)
Definition listResourcesQuery : string :=
  LF ++
  "    SELECT DISTINCT ?graph" ++ LF ++
  "    WHERE {" ++ LF ++
  "      GRAPH ?graph { ?s ?p ?o }" ++ LF ++
  "    }" ++ LF ++
  "    ORDER BY ?graph" ++ LF ++
  "  ".

(** The class-list view (lines 211-228). *)
Definition classListQuery : string :=
  LF ++
  "        PREFIX rdf: <http://www.w3.org/1999/02/22-rdf-syntax-ns#>" ++ LF ++
  "        PREFIX rdfs: <http://www.w3.org/2000/01/rdf-schema#>" ++ LF ++
  "        PREFIX owl: <http://www.w3.org/2002/07/owl#>" ++ LF ++
  "        SELECT DISTINCT ?class ?label ?comment (COUNT(?instance) as ?count)" ++ LF ++
  "        WHERE {" ++ LF ++
  "          {" ++ LF ++
  "            ?class a rdfs:Class ." ++ LF ++
  "          } UNION {" ++ LF ++
  "            ?class a owl:Class ." ++ LF ++
  "          }" ++ LF ++
  "          OPTIONAL { ?instance a ?class }" ++ LF ++
  "          OPTIONAL { ?class rdfs:label ?label }" ++ LF ++
  "          OPTIONAL { ?class rdfs:comment ?comment }" ++ LF ++
  "        }" ++ LF ++
  "        GROUP BY ?class ?label ?comment" ++ LF ++
  "        ORDER BY DESC(?count)" ++ LF ++
  "      ".

(** The predicate-list view (lines 242-254). *)
Definition predicatesQuery : string :=
  LF ++
  "        PREFIX rdf: <http://www.w3.org/1999/02/22-rdf-syntax-ns#>" ++ LF ++
  "        PREFIX rdfs: <http://www.w3.org/2000/01/rdf-schema#>" ++ LF ++
  "        SELECT DISTINCT ?predicate ?label ?comment (COUNT(" ++ "*" ++ ") as ?usage)" ++ LF ++
  "        WHERE {" ++ LF ++
  "          ?s ?predicate ?o ." ++ LF ++
  "          OPTIONAL { ?predicate rdfs:label ?label }" ++ LF ++
  "          OPTIONAL { ?predicate rdfs:comment ?comment }" ++ LF ++
  "        }" ++ LF ++
  "        GROUP BY ?predicate ?label ?comment" ++ LF ++
  "        ORDER BY DESC(?usage)" ++ LF ++
  "        LIMIT 100" ++ LF ++
  "      ".

(** The statistics view, first query (lines 268-278). *)
Definition statsQuery : string :=
  LF ++
  "        PREFIX rdf: <http://www.w3.org/1999/02/22-rdf-syntax-ns#>" ++ LF ++
  "        SELECT " ++ LF ++
  "          (COUNT(DISTINCT ?s) as ?subjects) " ++ LF ++
  "          (COUNT(DISTINCT ?p) as ?predicates) " ++ LF ++
  "          (COUNT(DISTINCT ?o) as ?objects)" ++ LF ++
  "          (COUNT(" ++ "*" ++ ") as ?triples)" ++ LF ++
  "        WHERE {" ++ LF ++
  "          ?s ?p ?o ." ++ LF ++
  "        }" ++ LF ++
  "      ".

(** The statistics view, graph count (lines 283-288). *)
Definition graphQuery : string :=
  LF ++
  "        SELECT (COUNT(DISTINCT ?g) as ?graphs)" ++ LF ++
  "        WHERE {" ++ LF ++
  "          GRAPH ?g { ?s ?p ?o }" ++ LF ++
  "        }" ++ LF ++
  "      ".

(** The sample view (lines 311-317). *)
Definition sampleDataQuery : string :=
  LF ++
  "        SELECT ?subject ?predicate ?object" ++ LF ++
  "        WHERE {" ++ LF ++
  "          ?subject ?predicate ?object" ++ LF ++
  "        }" ++ LF ++
  "        LIMIT 50" ++ LF ++
  "      ".

(** Graph detail: sample rows of one graph (lines 331-338). *)
Definition graphSampleQuery (graphUri : string) : string :=
  LF ++
  "        SELECT ?subject ?predicate ?object" ++ LF ++
  "        FROM <" ++ graphUri ++ ">" ++ LF ++
  "        WHERE {" ++ LF ++
  "          ?subject ?predicate ?object" ++ LF ++
  "        }" ++ LF ++
  "        LIMIT 100" ++ LF ++
  "      ".

(** Graph detail: counts of one graph (lines 343-350). *)
Definition metadataQuery (graphUri : string) : string :=
  LF ++
  "        PREFIX rdf: <http://www.w3.org/1999/02/22-rdf-syntax-ns#>" ++ LF ++
  "        SELECT (COUNT(" ++ "*" ++ ") as ?triples) (COUNT(DISTINCT ?s) as ?subjects) (COUNT(DISTINCT ?p) as ?predicates)" ++ LF ++
  "        FROM <" ++ graphUri ++ ">" ++ LF ++
  "        WHERE {" ++ LF ++
  "          ?s ?p ?o ." ++ LF ++
  "        }" ++ LF ++
  "      ".

(** Graph detail: ontology classes of one graph (lines 355-369). *)
Definition ontologyQuery (graphUri : string) : string :=
  LF ++
  "        PREFIX rdf: <http://www.w3.org/1999/02/22-rdf-syntax-ns#>" ++ LF ++
  "        PREFIX rdfs: <http://www.w3.org/2000/01/rdf-schema#>" ++ LF ++
  "        PREFIX owl: <http://www.w3.org/2002/07/owl#>" ++ LF ++
  "        SELECT DISTINCT ?class" ++ LF ++
  "        FROM <" ++ graphUri ++ ">" ++ LF ++
  "        WHERE {" ++ LF ++
  "          {" ++ LF ++
  "            ?class a rdfs:Class ." ++ LF ++
  "          } UNION {" ++ LF ++
  "            ?class a owl:Class ." ++ LF ++
  "          }" ++ LF ++
  "        }" ++ LF ++
  "        LIMIT 20" ++ LF ++
  "      ".

(** The query of the [listGraphs] tool (lines 525-531). *)
Definition listGraphsQuery : string :=
  LF ++
  "      SELECT DISTINCT ?graph" ++ LF ++
  "      WHERE {" ++ LF ++
  "        GRAPH ?graph { ?s ?p ?o }" ++ LF ++
  "      }" ++ LF ++
  "      ORDER BY ?graph" ++ LF ++
  "    ".

(** ** Configuration and the library functions the handlers call *)

(** The module-level constants read once at start-up (lines 51-57). *)
Record Config : Type := mkConfig {
  endpoint : string;
  repository : string;
  username : string;
  password : string;
  cfAccessClientId : string;
  cfAccessClientSecret : string
}.

(** What is handed to [JSON.stringify]: a query result as received, the
    [{ statistics: .. }] object, or the graph-detail object with its three
    members.  A member that is [undefined] is [None]. *)
Inductive Payload : Type :=
| PResults (result : SparqlResults)
| PStatistics (statistics : JsObject (option SparqlTerm))
| PGraphDetail (sampleData : list SparqlBinding)
               (metadata : option SparqlBinding)
               (ontologyClasses : list SparqlBinding).

(** Functions of the platform, which the repository does not define.
    [resource_href rel] is [new URL(rel, resourceBaseUrl).href] for the base
    fixed at start-up; resolving a relative path against a hierarchical base
    does not throw.  [encodeURIComponent] throws on a lone surrogate only,
    which a UTF-8 text does not contain. *)
Record Platform : Type := mkPlatform {
  base64 : string -> string;
  JSON_stringify : Payload -> string;
  resource_href : string -> string;
  url_pathname : string -> Completion string;
  encodeURIComponent : string -> string;
  decodeURIComponent : string -> Completion string
}.

(** Path constants (lines 80-85). *)
Definition REPOSITORY_PATH : string := "repository".
Definition GRAPH_PATH : string := "graph".
Definition CLASS_LIST_PATH : string := "classes".
Definition PREDICATES_PATH : string := "predicates".
Definition SAMPLE_DATA_PATH : string := "sample".
Definition STATS_PATH : string := "stats".

(** Results of the handlers. *)
Record Resource : Type := mkResource {
  res_uri : string;
  res_mimeType : string;
  res_name : string
}.

Record ListResourcesResult : Type := mkList { resources : list Resource }.

Record ResourceContents : Type := mkContents {
  rc_uri : string;
  rc_mimeType : string;
  rc_text : string
}.

Record ReadResourceResult : Type := mkRead { contents : list ResourceContents }.

Record TextContent : Type := mkText { tc_type : string; tc_text : string }.

Record ToolResult : Type := mkTool {
  content : list TextContent;
  isError : bool
}.

(** [l.map(f)] for an [f] that can throw: the first throw ends the loop. *)
Fixpoint map_completion {A B : Type} (f : A -> Completion B) (l : list A)
  : Completion (list B) :=
  match l with
  | [] => Normal []
  | a :: l' =>
      (b <~ f a ;; bs <~ map_completion f l' ;; Normal (b :: bs))%completion
  end.

(** [{ ...b }]: the own members of [b] copied in order; nothing when [b] is
    [undefined]. *)
Definition spread (b : option SparqlBinding) : JsObject (option SparqlTerm) :=
  match b with
  | None => []
  | Some o => fold_left (fun acc kv => set_prop acc (fst kv) (Some (snd kv))) o []
  end.

(** ** Method calls on a value of unknown type (lines 460-467)

    [sparqlQuery] is cast to [string] without a check, so the receiver of
    [includes], [indexOf] and [substring] is whatever the request carried.
    The messages are those of V8. *)

Definition not_a_function (m : string) : JsError :=
  TypeError ("sparqlQuery." ++ m ++ " is not a function").

Definition no_properties (v m : string) : JsError :=
  TypeError ("Cannot read properties of " ++ v ++ " (reading '" ++ m ++ "')").

Definition js_includes (v : JsVal) (pat : string) : Completion bool :=
  match v with
  | JStr s => Normal (includes s pat)
  | JArr l => Normal (arr_includes l pat)
  | JUndefined => Throw (no_properties "undefined" "includes")
  | JNull => Throw (no_properties "null" "includes")
  | JBool _ | JNum _ | JObj _ => Throw (not_a_function "includes")
  end.

Definition js_indexOf (v : JsVal) (pat : string) : Completion Z :=
  match v with
  | JStr s => Normal (indexOf s pat)
  | JArr l => Normal (arr_indexOf l pat)
  | JUndefined => Throw (no_properties "undefined" "indexOf")
  | JNull => Throw (no_properties "null" "indexOf")
  | JBool _ | JNum _ | JObj _ => Throw (not_a_function "indexOf")
  end.

Definition js_substring (v : JsVal) (cut : string -> string)
  : Completion string :=
  match v with
  | JStr s => Normal (cut s)
  | JUndefined => Throw (no_properties "undefined" "substring")
  | JNull => Throw (no_properties "null" "substring")
  | JBool _ | JNum _ | JArr _ | JObj _ => Throw (not_a_function "substring")
  end.

(** The graph-scoping rewrite (lines 459-469): the value of
    [modifiedQuery] after the [if], or the throw of one of its method
    calls.  [&&] evaluates its right operand only when the left is truthy,
    and [+] its operands from left to right. *)
Definition modifiedQuery (sparqlQuery graph : JsVal) : Completion JsVal :=
  (unscoped <~
     (if truthy graph then
        hasFrom <~ js_includes sparqlQuery "FROM <" ;;
        if negb hasFrom then
          hasGraph <~ js_includes sparqlQuery "GRAPH <" ;;
          Normal (negb hasGraph)
        else Normal false
      else Normal false) ;;
   if unscoped : bool then
     insertPoint <~ js_indexOf sparqlQuery "WHERE" ;;
     if (insertPoint >? 0)%Z then
       before <~ js_substring sparqlQuery
                   (fun s => substring_to s insertPoint) ;;
       let clause := "FROM <" ++ ToString graph ++ "> " in
       after <~ js_substring sparqlQuery
                  (fun s => substring_from s insertPoint) ;;
       Normal (JStr (before ++ clause ++ after))
     else Normal sparqlQuery
   else Normal sparqlQuery)%completion.

(** ** The handlers *)

Definition default_accept : string := "application/sparql-results+json".

(** [request.params.arguments?.key]. *)
Definition argument (arguments : option (JsObject JsVal)) (key : string)
  : JsVal :=
  match arguments with
  | None => JUndefined
  | Some o => match get_prop o key with
              | Some v => v
              | None => JUndefined
              end
  end.

(** What the path-parsing loop of the read handler assigns. *)
Record Address : Type := mkAddress {
  repoName : string;
  graphUri : string;
  resourceType : string
}.

Definition is_view_token (c : string) : bool :=
  existsb (String.eqb c)
    [CLASS_LIST_PATH; PREDICATES_PATH; SAMPLE_DATA_PATH; STATS_PATH].

Section Server.

Variable cfg : Config.
Variable js : Platform.

(** Lines 64-73. *)
Definition hasAuth : bool :=
  negb (username cfg =? "") && negb (password cfg =? "").

Definition hasCfAccess : bool :=
  negb (cfAccessClientId cfg =? "") && negb (cfAccessClientSecret cfg =? "").

Definition repositoryUrl : string :=
  endpoint cfg ++ "/repositories/" ++ repository cfg.

(** The headers of a request (lines 93-108, and again lines 477-492). *)
Definition requestHeaders (accept : string) : JsObject string :=
  let headers := [("Content-Type", "application/sparql-query");
                  ("Accept", accept)] in
  let headers :=
    if hasAuth then
      let authString := base64 js (username cfg ++ ":" ++ password cfg) in
      set_prop headers "Authorization" ("Basic " ++ authString)
    else headers in
  if hasCfAccess then
    set_prop
      (set_prop headers "CF-Access-Client-Id" (cfAccessClientId cfg))
      "CF-Access-Client-Secret" (cfAccessClientSecret cfg)
  else headers.

Definition queryRequest (query : JsVal) (accept : string) : RequestInit :=
  {| method := "POST"; headers := requestHeaders accept; body := query |}.

Definition failed_status (response : Response) : JsError :=
  Error ("GraphDB query failed: " ++ string_of_nat (status response)
         ++ " " ++ statusText response).

(** Lines 88-125.  [query] is declared a string; the tool handler passes
    what its rewrite left, whatever its type. *)
Definition executeSparqlQuery (query : JsVal) (accept : string)
  : Async SparqlResults :=
  try_catch
    (response <- fetch repositoryUrl (queryRequest query accept) ;;
     if negb (ok response) then Raise (failed_status response)
     else lift (json response))
    (fun error =>
       ConsoleError "Error executing SPARQL query:" error (Raise error)).

(** *** Listing resources (lines 128-181) *)

Definition graphOfBinding (binding : SparqlBinding) : Completion string :=
  match get_prop binding "graph" with
  | Some term => Normal (value term)
  | None => Throw (no_properties "undefined" "value")
  end.

Definition repositoryResource (path label : string) : Resource :=
  {| res_uri := resource_href js
                  (REPOSITORY_PATH ++ "/" ++ repository cfg ++ "/" ++ path);
     res_mimeType := "application/json";
     res_name := "Repository '" ++ repository cfg ++ "' " ++ label |}.

Definition graphResource (graph : string) : Resource :=
  {| res_uri := resource_href js
                  (REPOSITORY_PATH ++ "/" ++ repository cfg ++ "/"
                   ++ GRAPH_PATH ++ "/" ++ encodeURIComponent js graph);
     res_mimeType := "application/json";
     res_name := "Graph '" ++ graph ++ "'" |}.

Definition fixedResources : list Resource :=
  [ repositoryResource CLASS_LIST_PATH "class list";
    repositoryResource PREDICATES_PATH "predicates";
    repositoryResource STATS_PATH "statistics";
    repositoryResource SAMPLE_DATA_PATH "sample data" ].

Definition listResources : Async ListResourcesResult :=
  if repository cfg =? "" then Return {| resources := [] |}
  else
    let query := listResourcesQuery in
    try_catch
      (result <- executeSparqlQuery (JStr query) default_accept ;;
       graphs <- lift (map_completion graphOfBinding
                         (bindings (results result))) ;;
       Return {| resources := fixedResources ++ map graphResource graphs |})
      (fun error =>
         ConsoleError "Error listing resources:" error
           (Return {| resources := [] |})).

(** *** Reading a resource (lines 184-401) *)

(** The loop of lines 194-202 over [pathComponents], from the segment at
    hand onwards: [i + 1 < pathComponents.length] holds when a segment
    follows. *)
Fixpoint scanPath (pathComponents : list string) (a : Address)
  : Completion Address :=
  match pathComponents with
  | [] => Normal a
  | c :: rest =>
      let has_next := match rest with [] => false | _ :: _ => true end in
      let next := hd "" rest in
      (a' <~
         (if (c =? REPOSITORY_PATH) && has_next then
            Normal {| repoName := next;
                      graphUri := graphUri a;
                      resourceType := resourceType a |}
          else if (c =? GRAPH_PATH) && has_next then
            decoded <~ decodeURIComponent js next ;;
            Normal {| repoName := repoName a;
                      graphUri := decoded;
                      resourceType := resourceType a |}
          else if is_view_token c then
            Normal {| repoName := repoName a;
                      graphUri := graphUri a;
                      resourceType := c |}
          else Normal a) ;;
       scanPath rest a')%completion
  end.

Definition emptyAddress : Address :=
  {| repoName := ""; graphUri := ""; resourceType := "" |}.

Definition jsonContents (uri : string) (payload : Payload)
  : ReadResourceResult :=
  {| contents := [ {| rc_uri := uri;
                      rc_mimeType := "application/json";
                      rc_text := JSON_stringify js payload |} ] |}.

(** Lines 209-239. *)
Definition classListView (uri : string) : Async ReadResourceResult :=
  result <- executeSparqlQuery (JStr classListQuery) default_accept ;;
  Return (jsonContents uri (PResults result)).

(** Lines 240-265. *)
Definition predicatesView (uri : string) : Async ReadResourceResult :=
  result <- executeSparqlQuery (JStr predicatesQuery) default_accept ;;
  Return (jsonContents uri (PResults result)).

(** The object literal of lines 293-298: the members of the first row of
    [result], then [graphs], read from the first row of [graphResult]. *)
Definition combineStatistics (result graphResult : SparqlResults)
  : Completion Payload :=
  let members := spread (nth_error (bindings (results result)) 0) in
  match nth_error (bindings (results graphResult)) 0 with
  | None => Throw (no_properties "undefined" "graphs")
  | Some row => Normal (PStatistics
                          (set_prop members "graphs" (get_prop row "graphs")))
  end.

(** Lines 266-308. *)
Definition statsView (uri : string) : Async ReadResourceResult :=
  result <- executeSparqlQuery (JStr statsQuery) default_accept ;;
  graphResult <- executeSparqlQuery (JStr graphQuery) default_accept ;;
  combined <- lift (combineStatistics result graphResult) ;;
  Return (jsonContents uri combined).

(** Lines 309-328. *)
Definition sampleView (uri : string) : Async ReadResourceResult :=
  result <- executeSparqlQuery (JStr sampleDataQuery) default_accept ;;
  Return (jsonContents uri (PResults result)).

(** Lines 329-393.  [ontologyResult] is only ever read through
    [.results.bindings], so it is kept as its [results] member, which the
    [catch] sets to [{ bindings: [] }]. *)
Definition graphDetailView (uri graph : string) : Async ReadResourceResult :=
  result <- executeSparqlQuery (JStr (graphSampleQuery graph))
              default_accept ;;
  metadataResult <- executeSparqlQuery (JStr (metadataQuery graph))
                      default_accept ;;
  ontologyResult <-
    try_catch
      (r <- executeSparqlQuery (JStr (ontologyQuery graph)) default_accept ;;
       Return (results r))
      (fun err => Return {| bindings := [] |}) ;;
  let combined :=
    PGraphDetail (bindings (results result))
                 (nth_error (bindings (results metadataResult)) 0)
                 (bindings ontologyResult) in
  Return (jsonContents uri combined).

(** The chain of lines 209-396. *)
Definition resolveView (uri : string) (a : Address)
  : Async ReadResourceResult :=
  if resourceType a =? CLASS_LIST_PATH then classListView uri
  else if resourceType a =? PREDICATES_PATH then predicatesView uri
  else if resourceType a =? STATS_PATH then statsView uri
  else if resourceType a =? SAMPLE_DATA_PATH then sampleView uri
  else if negb (graphUri a =? "") then graphDetailView uri (graphUri a)
  else Raise (Error "Invalid resource URI").

Definition rethrow (error : JsError) : Async ReadResourceResult :=
  ConsoleError "Error reading resource:" error (Raise error).

Definition readResource (uri : string) : Async ReadResourceResult :=
  pathname <- lift (url_pathname js uri) ;;
  let pathComponents := split "/" pathname in
  a <- lift (scanPath pathComponents emptyAddress) ;;
  if repoName a =? "" then
    Raise (Error "Invalid resource URI: missing repository name")
  else try_catch (resolveView uri a) rethrow.

(** *** Calling a tool (lines 444-548) *)

Definition toolResult (t : string) (failed : bool) : ToolResult :=
  {| content := [ {| tc_type := "text"; tc_text := t |} ];
     isError := failed |}.

(** Lines 473-508: the request made in place, the body returned as it
    came. *)
Definition rawQuery (query : JsVal) (acceptHeader : string)
  : Async ToolResult :=
  response <- fetch repositoryUrl (queryRequest query acceptHeader) ;;
  if negb (ok response) then Raise (failed_status response)
  else
    textResult <- lift (text response) ;;
    Return (toolResult textResult false).

(** Lines 509-516. *)
Definition typedQuery (query : JsVal) (acceptHeader : string)
  : Async ToolResult :=
  result <- executeSparqlQuery query acceptHeader ;;
  Return (toolResult (JSON_stringify js (PResults result)) false).

Definition sparqlQueryTool (arguments : option (JsObject JsVal))
  : Async ToolResult :=
  let sparqlQuery := argument arguments "query" in
  let graph := argument arguments "graph" in
  let format := if truthy (argument arguments "format")
                then argument arguments "format" else JStr "json" in
  let acceptHeader :=
    if strict_eq_str format "xml" then "application/sparql-results+xml"
    else if strict_eq_str format "csv" then "text/csv"
    else "application/sparql-results+json" in
  query <- lift (modifiedQuery sparqlQuery graph) ;;
  try_catch
    (if negb (strict_eq_str format "json") then rawQuery query acceptHeader
     else typedQuery query acceptHeader)
    (fun error =>
       Return (toolResult
                 ("Error executing query: " ++ err_message error) true)).

Definition listGraphsTool : Async ToolResult :=
  let query := listGraphsQuery in
  try_catch
    (result <- executeSparqlQuery (JStr query) default_accept ;;
     Return (toolResult (JSON_stringify js (PResults result)) false))
    (fun error =>
       Return (toolResult
                 ("Error listing graphs: " ++ err_message error) true)).

Definition callTool (name : string) (arguments : option (JsObject JsVal))
  : Async ToolResult :=
  if name =? "sparqlQuery" then sparqlQueryTool arguments
  else if name =? "listGraphs" then listGraphsTool
  else Raise (Error ("Unknown tool: " ++ name)).

End Server.

(** ** Reading the specification's words *)

(** What the executor makes of the answer to its request: the parsed body
    of a successful response, else the failure it throws (lines 110-120). *)
Definition queryOutcome (o : FetchOutcome) : Completion SparqlResults :=
  match o with
  | Rejected e => Throw e
  | Resolved r => if ok r then json r else Throw (failed_status r)
  end.

(** [occurs_at pat s k]: [pat] starts at byte [k] of [s]. *)
Definition occurs_at (pat s : string) (k : nat) : Prop :=
  prefix pat (drop k s) = true.

(** The requests a run has made: they decide which answer comes next. *)
Definition answered (evs : list Event) : nat := List.length (fetches evs).




(** The in-band error of the query tool (lines 517-522). *)
Definition queryError (error : JsError) : ToolResult :=
  toolResult ("Error executing query: " ++ err_message error) true.

(** The raw-passthrough path of the query tool with the JSON results
    encoding requested: [rawQuery] inside the handler's [try]. *)
Definition rawPassthroughJson (cfg : Config) (js : Platform) (query : JsVal)
  : Async ToolResult :=
  try_catch
    (rawQuery cfg js query "application/sparql-results+json")
    (fun error => Return (queryError error)).

(** What raw passthrough makes of the answer to its request: the body of a
    successful response as literal text, else the in-band error. *)
Definition rawAnswer (o : FetchOutcome) : ToolResult :=
  match o with
  | Rejected e => queryError e
  | Resolved r =>
      if ok r then
        match text r with
        | Normal textResult => toolResult textResult false
        | Throw e => queryError e
        end
      else queryError (failed_status r)
  end.


(** The view-kind token that comes last among the segments of a path, or
    [d] when none is one. *)
Fixpoint last_view_token (segments : list string) (d : string) : string :=
  match segments with
  | [] => d
  | c :: rest => last_view_token rest (if is_view_token c then c else d)
  end.


(** ** A server to run: configuration, platform and networks

    Stand-ins with which the handlers evaluate to a value.  The platform
    functions are the simplest ones of the right shape: identity for the
    two component codecs, the text after the authority for the path. *)

Definition demoConfig : Config :=
  {| endpoint := "http://localhost:7200";
     repository := "demo";
     username := "";
     password := "";
     cfAccessClientId := "";
     cfAccessClientSecret := "" |}.

Definition noRepository : Config :=
  {| endpoint := "http://localhost:7200";
     repository := "";
     username := "";
     password := "";
     cfAccessClientId := "";
     cfAccessClientSecret := "" |}.

Definition demo_pathname (uri : string) : Completion string :=
  match index_from "://" uri 0 with
  | None => Throw (TypeError "Invalid URL")
  | Some i =>
      let rest := drop (i + 3) uri in
      match index_from "/" rest 0 with
      | Some j => Normal (drop j rest)
      | None => Normal ""
      end
  end.

Definition demo_stringify (p : Payload) : string :=
  match p with
  | PResults r =>
      "results:" ++ string_of_nat (List.length (bindings (results r)))
  | PStatistics members =>
      "statistics:" ++ String.concat "," (map fst members)
  | PGraphDetail sampleData metadata ontologyClasses =>
      "graph:" ++ string_of_nat (List.length sampleData) ++ "/"
      ++ string_of_nat (List.length ontologyClasses)
  end.

Definition demoPlatform : Platform :=
  {| base64 := fun s => s;
     JSON_stringify := demo_stringify;
     resource_href := fun rel => "graphdb://localhost:7200/" ++ rel;
     url_pathname := demo_pathname;
     encodeURIComponent := fun s => s;
     decodeURIComponent := fun s => Normal s |}.

Definition iri (v : string) : SparqlTerm :=
  {| type := "uri"; value := v; datatype := None; xml_lang := None |}.

Definition count (v : string) : SparqlTerm :=
  {| type := "literal"; value := v;
     datatype := Some "http://www.w3.org/2001/XMLSchema#integer";
     xml_lang := None |}.

Definition rows (vs : list string) (bs : list SparqlBinding) : SparqlResults :=
  {| head := {| vars := vs; link := None |}; results := {| bindings := bs |} |}.

Definition okResponse (r : SparqlResults) : FetchOutcome :=
  Resolved {| ok := true; status := 200; statusText := "OK";
              json := Normal r; text := Normal "" |}.

Definition serverError : FetchOutcome :=
  Resolved {| ok := false; status := 500;
              statusText := "Internal Server Error";
              json := Throw (mkJsError "SyntaxError" "Unexpected end of JSON input");
              text := Normal "" |}.

(** A response whose body is CSV: text, and not JSON. *)
Definition csvResponse : FetchOutcome :=
  Resolved {| ok := true; status := 200; statusText := "OK";
              json := Throw (mkJsError "SyntaxError"
                               "Unexpected token 's', is not valid JSON");
              text := Normal "s,p,o" |}.

(** Two graphs, [urn:a] and [urn:b], answered to every request. *)
Definition twoGraphs : Network :=
  fun _ _ _ => okResponse (rows ["graph"] [ [("graph", iri "urn:a")];
                                            [("graph", iri "urn:b")] ]).

Definition downNetwork : Network := fun _ _ _ => serverError.

Definition csvNetwork : Network := fun _ _ _ => csvResponse.

(** Counts to the first request, a graph count to the second; the first
    row carries a [graphs] member of its own. *)
Definition statsNetwork : Network :=
  fun n _ _ =>
    match n with
    | 0 => okResponse (rows ["subjects"; "graphs"]
                         [ [("subjects", count "7"); ("graphs", count "99")] ])
    | _ => okResponse (rows ["graphs"] [ [("graphs", count "2")] ])
    end.


(** ** Start-up: the configuration (lines 51-57)

    [process.env] maps a variable name to its value, or to [undefined];
    [argv] is [process.argv], whose first two entries are the interpreter
    and the script. *)

(** [a || b] where [a] and [b] are strings or [undefined]. *)
Definition js_or (a b : option string) : option string :=
  match a with
  | Some s => if s =? "" then b else a
  | None => b
  end.

(** [a || d] where [d] is a string literal. *)
Definition js_or_default (a : option string) (d : string) : string :=
  match js_or a (Some d) with
  | Some s => s
  | None => d
  end.

Definition loadConfig (env : string -> option string) (argv : list string)
  : Config :=
  let args := skipn 2 argv in
  {| endpoint :=
       js_or_default (js_or (env "GRAPHDB_ENDPOINT") (nth_error args 0))
         "http://localhost:7200";
     repository :=
       js_or_default (js_or (env "GRAPHDB_REPOSITORY") (nth_error args 1)) "";
     username := js_or_default (env "GRAPHDB_USERNAME") "";
     password := js_or_default (env "GRAPHDB_PASSWORD") "";
     cfAccessClientId := js_or_default (env "CF_ACCESS_CLIENT_ID") "";
     cfAccessClientSecret := js_or_default (env "CF_ACCESS_CLIENT_SECRET") "" |}.

(** ** Listing the tools (lines 404-441) *)

Record Tool : Type := mkToolEntry {
  tool_name : string;
  tool_description : string;
  inputSchema : JsVal
}.

Definition listTools : list Tool :=
  [ {| tool_name := "sparqlQuery";
       tool_description :=
         "Execute a read-only SPARQL query against the GraphDB repository";
       inputSchema :=
         JObj [ ("type", JStr "object");
                ("properties",
                 JObj [ ("query",
                         JObj [ ("type", JStr "string");
                                ("description",
                                 JStr "The SPARQL query to execute") ]);
                        ("graph",
                         JObj [ ("type", JStr "string");
                                ("description",
                                 JStr "Optional: Specific graph IRI to query") ]);
                        ("format",
                         JObj [ ("type", JStr "string");
                                ("description",
                                 JStr "Optional: Response format (json, xml, csv)");
                                ("enum", JArr [JStr "json"; JStr "xml";
                                               JStr "csv"]);
                                ("default", JStr "json") ]) ]);
                ("required", JArr [JStr "query"]) ] |};
    {| tool_name := "listGraphs";
       tool_description := "List all graphs in the repository";
       inputSchema :=
         JObj [ ("type", JStr "object"); ("properties", JObj []) ] |} ].



(** The Accept header the query tool picks for a format (lines 450-456). *)
Definition acceptHeaderOf (format : JsVal) : string :=
  if strict_eq_str format "xml" then "application/sparql-results+xml"
  else if strict_eq_str format "csv" then "text/csv"
  else "application/sparql-results+json".

(** The format the query tool works with (line 448): the argument, or
    json when the argument is falsy. *)
Definition formatOf (arguments : option (JsObject JsVal)) : JsVal :=
  if truthy (argument arguments "format")
  then argument arguments "format" else JStr "json".

(** What the typed path makes of the answer to its request: the result
    serialised, else the in-band error. *)
Definition typedAnswer (js : Platform) (o : FetchOutcome) : ToolResult :=
  match queryOutcome o with
  | Normal result => toolResult (JSON_stringify js (PResults result)) false
  | Throw e => queryError e
  end.

(** ** A contract for asynchronous functions

    [Meets P Q k p]: in every run of [p], each request satisfies [P], at
    most [k] requests are made, and a value that is returned satisfies
    [Q]. *)
Inductive Meets {A : Type} (P : string -> RequestInit -> Prop) (Q : A -> Prop)
  : nat -> Async A -> Prop :=
| Meets_Return (k : nat) (a : A) : Q a -> Meets P Q k (Return a)
| Meets_Raise (k : nat) (e : JsError) : Meets P Q k (Raise e)
| Meets_Fetch (k : nat) (u : string) (i : RequestInit)
              (cont : FetchOutcome -> Async A) :
    P u i -> (forall o, Meets P Q k (cont o)) ->
    Meets P Q (S k) (Fetch u i cont)
| Meets_ConsoleError (k : nat) (l : string) (e : JsError) (p : Async A) :
    Meets P Q k p -> Meets P Q k (ConsoleError l e p).

(** A request event satisfies [P]; a console line is not a request. *)
Definition request_meets (P : string -> RequestInit -> Prop) (ev : Event)
  : Prop :=
  match ev with
  | EFetch u i => P u i
  | EConsoleError _ _ => True
  end.

(** What every request of the server looks like. *)
Definition repositoryPost (cfg : Config) (js : Platform)
           (u : string) (i : RequestInit) : Prop :=
  u = repositoryUrl cfg
  /\ method i = "POST"
  /\ exists accept, headers i = requestHeaders cfg js accept.

(** The one item a read returns for [uri]. *)
Definition contentsFor (uri : string) (r : ReadResourceResult) : Prop :=
  exists t, contents r = [ {| rc_uri := uri;
                              rc_mimeType := "application/json";
                              rc_text := t |} ].

(** The one text item a tool returns. *)
Definition singleText (r : ToolResult) : Prop :=
  exists t, content r = [ {| tc_type := "text"; tc_text := t |} ].



(** An environment with credentials and no endpoint. *)
Definition demoEnv (name : string) : option string :=
  if name =? "GRAPHDB_REPOSITORY" then Some "fromEnv"
  else if name =? "GRAPHDB_USERNAME" then Some "alice"
  else if name =? "GRAPHDB_PASSWORD" then Some "secret"
  else None.

Definition authConfig : Config :=
  {| endpoint := "http://localhost:7200";
     repository := "demo";
     username := "alice";
     password := "secret";
     cfAccessClientId := "";
     cfAccessClientSecret := "" |}.

(** Counts to the first request, an empty graph count to the second. *)
Definition noCountNetwork : Network :=
  fun n _ _ =>
    match n with
    | 0 => okResponse (rows ["subjects"] [ [("subjects", count "7")] ])
    | _ => okResponse (rows ["graphs"] [])
    end.

(** One row that names a graph and one that does not. *)
Definition oddRowNetwork : Network :=
  fun _ _ _ => okResponse (rows ["graph"] [ [("graph", iri "urn:a")];
                                            [("g", iri "urn:b")] ]).

(** * Properties *)

(** ** Strings *)

Lemma take_drop (n : nat) (s : string) : take n s ++ drop n s = s.
Proof.
  revert s; induction n as [|n IH]; intros [|c s]; simpl; try reflexivity.
  now rewrite IH.
Qed.

Lemma append_assoc (a b c : string) : (a ++ b) ++ c = a ++ b ++ c.
Proof. induction a as [|x a IH]; simpl; [reflexivity | now rewrite IH]. Qed.

Lemma prefix_append (p s : string) : prefix p (p ++ s) = true.
Proof.
  induction p as [|c p IH]; simpl.
  - now destruct s.
  - destruct (ascii_dec c c) as [_|ne]; [exact IH | now elim ne].
Qed.

Lemma index_from_eq (pat s : string) (i : nat) :
  index_from pat s i =
  if prefix pat s then Some i
  else match s with
       | EmptyString => None
       | String _ s' => index_from pat s' (S i)
       end.
Proof. now destruct s. Qed.

(** What [index_from] finds is the first occurrence. *)
Lemma index_from_found (pat s : string) (i n : nat) :
  index_from pat s i = Some n ->
  exists k, n = i + k /\ occurs_at pat s k /\
            forall j, j < k -> ~ occurs_at pat s j.
Proof.
  unfold occurs_at.
  revert i; induction s as [|c s IH]; intros i; rewrite index_from_eq.
  - destruct (prefix pat "") eqn:Hp; [|discriminate].
    intros E; injection E as <-.
    exists 0; repeat split; [lia | exact Hp | lia].
  - destruct (prefix pat (String c s)) eqn:Hp.
    + intros E; injection E as <-.
      exists 0; repeat split; [lia | exact Hp | lia].
    + intros H. destruct (IH _ H) as (k & -> & Hk & Hmin).
      exists (S k); repeat split; [lia | exact Hk |].
      intros [|j] Hj; cbn [drop].
      * now rewrite Hp.
      * apply Hmin; lia.
Qed.

Lemma index_from_none (pat s : string) (i : nat) :
  index_from pat s i = None -> forall k, ~ occurs_at pat s k.
Proof.
  unfold occurs_at.
  revert i; induction s as [|c s IH]; intros i; rewrite index_from_eq.
  - destruct (prefix pat "") eqn:Hp; [discriminate|].
    intros _ [|k]; cbn [drop]; now rewrite Hp.
  - destruct (prefix pat (String c s)) eqn:Hp; [discriminate|].
    intros H [|k]; cbn [drop].
    + now rewrite Hp.
    + exact (IH _ H k).
Qed.

Lemma index_from_append (pat a b : string) (i : nat) :
  index_from pat (a ++ pat ++ b) i <> None.
Proof.
  revert i; induction a as [|c a IH]; intros i; rewrite index_from_eq.
  - change ("" ++ pat ++ b) with (pat ++ b).
    now rewrite prefix_append.
  - cbn [append].
    destruct (prefix pat (String c (a ++ pat ++ b))); [discriminate|].
    apply IH.
Qed.

(** A text that was spliced around [pat] includes [pat]. *)
Lemma includes_append (pat a b : string) : includes (a ++ pat ++ b) pat = true.
Proof.
  unfold includes.
  destruct (index_from pat (a ++ pat ++ b) 0) eqn:E; [reflexivity|].
  now elim (index_from_append pat a b 0).
Qed.

Lemma indexOf_found (s pat : string) :
  (0 <= indexOf s pat)%Z ->
  let k := Z.to_nat (indexOf s pat) in
  occurs_at pat s k /\ forall j, j < k -> ~ occurs_at pat s j.
Proof.
  unfold indexOf. destruct (index_from pat s 0) as [n|] eqn:E; [|lia].
  intros _. destruct (index_from_found _ _ _ _ E) as (k & -> & Hk & Hmin).
  simpl. rewrite Nat2Z.id. now split.
Qed.

Lemma indexOf_absent (s pat : string) :
  (forall k, ~ occurs_at pat s k) -> indexOf s pat = (-1)%Z.
Proof.
  unfold indexOf. destruct (index_from pat s 0) as [n|] eqn:E; [|reflexivity].
  intros H. destruct (index_from_found _ _ _ _ E) as (k & _ & Hk & _).
  now elim (H k).
Qed.

Lemma indexOf_range (s pat : string) : (-1 <= indexOf s pat)%Z.
Proof. unfold indexOf. destruct (index_from pat s 0); lia. Qed.

(** ** Objects *)


(** ** Runs *)

Section Runs.

Context {A : Type}.

Lemma run_bind {B : Type} (p : Async A) (f : A -> Async B)
      (net : Network) (n : nat) :
  run (bind p f) net n =
  match run p net n with
  | (evs, Normal a) =>
      let (evs', c) := run (f a) net (n + answered evs) in ((evs ++ evs')%list, c)
  | (evs, Throw e) => (evs, Throw e)
  end.
Proof.
  revert n; induction p as [a|e|url init k IH|l e k IH]; intros n; simpl.
  - rewrite Nat.add_0_r. now destruct (run (f a) net n).
  - reflexivity.
  - rewrite IH. destruct (run (k (net n url init)) net (S n)) as [evs [a|e]].
    + unfold answered; simpl. rewrite Nat.add_succ_r.
      now destruct (run (f a) net _).
    + reflexivity.
  - rewrite IH. destruct (run k net n) as [evs [a|e']].
    + unfold answered; simpl. now destruct (run (f a) net _).
    + reflexivity.
Qed.

Lemma run_try_catch (p : Async A) (h : JsError -> Async A)
      (net : Network) (n : nat) :
  run (try_catch p h) net n =
  match run p net n with
  | (evs, Normal a) => (evs, Normal a)
  | (evs, Throw e) =>
      let (evs', c) := run (h e) net (n + answered evs) in ((evs ++ evs')%list, c)
  end.
Proof.
  revert n; induction p as [a|e|url init k IH|l e k IH]; intros n; simpl.
  - reflexivity.
  - rewrite Nat.add_0_r. now destruct (run (h e) net n).
  - rewrite IH. destruct (run (k (net n url init)) net (S n)) as [evs [a|e]].
    + reflexivity.
    + unfold answered; simpl. rewrite Nat.add_succ_r.
      now destruct (run (h e) net _).
  - rewrite IH. destruct (run k net n) as [evs [a|e']].
    + reflexivity.
    + unfold answered; simpl. now destruct (run (h e') net _).
Qed.

Lemma run_lift (c : Completion A) (net : Network) (n : nat) :
  run (lift c) net n = ([], c).
Proof. now destruct c. Qed.

End Runs.

Section Executor.

Variable cfg : Config.
Variable js : Platform.

(** One call of the executor: one request, and a line on the console
    when it fails. *)
Lemma run_executeSparqlQuery (query : JsVal) (accept : string)
      (net : Network) (n : nat) :
  let request := EFetch (repositoryUrl cfg) (queryRequest cfg js query accept) in
  run (executeSparqlQuery cfg js query accept) net n =
  match queryOutcome
          (net n (repositoryUrl cfg) (queryRequest cfg js query accept)) with
  | Normal result => ([request], Normal result)
  | Throw e =>
      ([request; EConsoleError "Error executing SPARQL query:" e], Throw e)
  end.
Proof.
  unfold executeSparqlQuery, fetch, queryOutcome; simpl.
  destruct (net n _ _) as [e|r]; simpl; [reflexivity|].
  destruct (ok r); simpl; [|reflexivity].
  now destruct (json r).
Qed.

End Executor.

(** ** The graph-scoping rewrite *)

(** On a query text the rewrite never throws; this is what it returns. *)
Lemma modifiedQuery_text (q : string) (graph : JsVal) :
  modifiedQuery (JStr q) graph =
  Normal (JStr
    (if truthy graph && negb (includes q "FROM <")
        && negb (includes q "GRAPH <") && (indexOf q "WHERE" >? 0)%Z
     then substring_to q (indexOf q "WHERE")
          ++ ("FROM <" ++ ToString graph ++ "> ")
          ++ substring_from q (indexOf q "WHERE")
     else q)).
Proof.
  unfold modifiedQuery; simpl.
  destruct (truthy graph); simpl; [|reflexivity].
  destruct (includes q "FROM <"); simpl; [reflexivity|].
  destruct (includes q "GRAPH <"); simpl; [reflexivity|].
  now destruct (indexOf q "WHERE" >? 0)%Z.
Qed.

(** A WHERE found after the first byte: the clause goes right before its
    first occurrence. *)
Lemma modifiedQuery_splices (q g : string) :
  g <> "" ->
  includes q "FROM <" = false ->
  includes q "GRAPH <" = false ->
  (indexOf q "WHERE" > 0)%Z ->
  exists before rest,
    q = before ++ rest /\
    prefix "WHERE" rest = true /\
    (forall j, j < String.length before -> ~ occurs_at "WHERE" q j) /\
    modifiedQuery (JStr q) (JStr g) =
    Normal (JStr (before ++ "FROM <" ++ g ++ "> " ++ rest)).
Proof.
  intros Hg Hfrom Hgraph Hpos.
  destruct (indexOf_found q "WHERE") as [Hocc Hmin]; [lia|].
  set (k := Z.to_nat (indexOf q "WHERE")) in *.
  exists (take k q), (drop k q); repeat split.
  - now rewrite take_drop.
  - exact Hocc.
  - intros j Hj. apply Hmin.
    assert (Hlen : forall n s, String.length (take n s) <= n).
    { induction n as [|n IH]; intros [|c s]; simpl; try lia.
      specialize (IH s); lia. }
    specialize (Hlen k q); lia.
  - rewrite modifiedQuery_text, Hfrom, Hgraph; simpl.
    destruct (g =? "") eqn:E; [now apply String.eqb_eq in E|]; simpl.
    destruct (indexOf q "WHERE" >? 0)%Z eqn:E'; [|lia].
    unfold substring_to, substring_from; fold k.
    now rewrite !append_assoc.
Qed.

(** No WHERE anywhere: the query is left as it is. *)
Lemma modifiedQuery_without_WHERE (q : string) (graph : JsVal) :
  (forall k, ~ occurs_at "WHERE" q k) ->
  modifiedQuery (JStr q) graph = Normal (JStr q).
Proof.
  intros H. rewrite modifiedQuery_text, (indexOf_absent _ _ H).
  now rewrite !andb_false_r.
Qed.

(** No graph given: the query is left as it is. *)
Lemma modifiedQuery_without_graph (q : JsVal) :
  modifiedQuery q JUndefined = Normal q.
Proof. reflexivity. Qed.

(** Rewriting twice is rewriting once, for every query text and graph. *)
Lemma modifiedQuery_twice (q : string) (graph : JsVal) :
  cbind (modifiedQuery (JStr q) graph) (fun q' => modifiedQuery q' graph)
  = modifiedQuery (JStr q) graph.
Proof.
  rewrite (modifiedQuery_text q graph); cbn [cbind].
  destruct (truthy graph && negb (includes q "FROM <")
            && negb (includes q "GRAPH <") && (indexOf q "WHERE" >? 0)%Z)
    eqn:E.
  - rewrite modifiedQuery_text, !append_assoc.
    rewrite (includes_append "FROM <").
    now rewrite andb_false_r.
  - now rewrite modifiedQuery_text, E.
Qed.

(** C3, at a query that starts with its WHERE keyword: the text has neither
    a FROM nor a GRAPH clause, its first WHERE is at position 0, and the
    rewrite returns it unchanged, without the scoping clause that belongs
    before that WHERE. *)
Theorem C3_WHERE_at_start_not_scoped :
  let q := "WHERE { ?s ?p ?o }" in
  includes q "FROM <" = false /\
  includes q "GRAPH <" = false /\
  indexOf q "WHERE" = 0%Z /\
  modifiedQuery (JStr q) (JStr "urn:g") = Normal (JStr q) /\
  modifiedQuery (JStr q) (JStr "urn:g")
  <> Normal (JStr (substring_to q 0 ++ "FROM <urn:g> " ++ substring_from q 0)).
Proof.
  cbv zeta. repeat apply conj; try reflexivity.
  vm_compute. discriminate.
Qed.

(** C4: a query that already has a source-scoping clause is a fixed point
    of the rewrite, so rewriting it twice equals rewriting it once. *)
Theorem C4_rewrite_idempotent (q g : string) :
  includes q "FROM <" = true ->
  modifiedQuery (JStr q) (JStr g) = Normal (JStr q) /\
  cbind (modifiedQuery (JStr q) (JStr g))
        (fun q' => modifiedQuery q' (JStr g))
  = modifiedQuery (JStr q) (JStr g).
Proof.
  intros H; split.
  - rewrite modifiedQuery_text, H; simpl. now rewrite andb_false_r.
  - apply modifiedQuery_twice.
Qed.

Lemma C4_rewrite_idempotent_witness :
  includes "SELECT * FROM <urn:a> WHERE { ?s ?p ?o }" "FROM <" = true /\
  cbind (modifiedQuery (JStr "SELECT * FROM <urn:a> WHERE { ?s ?p ?o }")
           (JStr "urn:g"))
        (fun q' => modifiedQuery q' (JStr "urn:g"))
  = Normal (JStr "SELECT * FROM <urn:a> WHERE { ?s ?p ?o }").
Proof.
  split; [reflexivity|].
  destruct (C4_rewrite_idempotent
              "SELECT * FROM <urn:a> WHERE { ?s ?p ?o }" "urn:g" eq_refl)
    as [Hfix Htwice].
  rewrite Htwice. exact Hfix.
Defined.

(** ** The handlers *)

Section Handlers.

Variable cfg : Config.
Variable js : Platform.

Local Abbreviation url := (repositoryUrl cfg).
Local Abbreviation request q := (queryRequest cfg js (JStr q) default_accept).

(** *** Addresses *)

Lemma view_token_cases (c : string) :
  is_view_token c = true ->
  c = CLASS_LIST_PATH \/ c = PREDICATES_PATH \/
  c = SAMPLE_DATA_PATH \/ c = STATS_PATH.
Proof.
  unfold is_view_token; simpl.
  rewrite !orb_true_iff, !String.eqb_eq. intuition discriminate.
Qed.

Lemma view_token_not_marker (c : string) :
  is_view_token c = true ->
  (c =? REPOSITORY_PATH) = false /\ (c =? GRAPH_PATH) = false.
Proof.
  intros H.
  destruct (view_token_cases c H) as [-> | [-> | [-> | ->]]]; now split.
Qed.

Lemma not_view_token (c : string) :
  is_view_token c = false ->
  (c =? CLASS_LIST_PATH) = false /\ (c =? PREDICATES_PATH) = false /\
  (c =? STATS_PATH) = false /\ (c =? SAMPLE_DATA_PATH) = false.
Proof.
  unfold is_view_token; simpl. rewrite !orb_false_iff. tauto.
Qed.

(** The loop leaves in [resourceType] the last view-kind token of the
    path, whatever markers surround it. *)
Lemma scanPath_resourceType (segments : list string) (a0 a : Address) :
  scanPath js segments a0 = Normal a ->
  resourceType a = last_view_token segments (resourceType a0).
Proof.
  revert a0; induction segments as [|c rest IH]; intros a0; cbn [scanPath].
  - now intros [= <-].
  - cbn [last_view_token].
    destruct (is_view_token c) eqn:Htok.
    + destruct (view_token_not_marker c Htok) as [-> ->]; simpl.
      intros H. now rewrite (IH _ H).
    + destruct ((c =? REPOSITORY_PATH) && _).
      { simpl. intros H. now rewrite (IH _ H). }
      destruct ((c =? GRAPH_PATH) && _).
      * destruct (decodeURIComponent js (hd "" rest)); simpl;
          [|discriminate].
        intros H. now rewrite (IH _ H).
      * simpl. intros H. now rewrite (IH _ H).
Qed.



(** Past the parser, a read is the view chain inside its [try]. *)
Lemma run_readResource (uri path : string) (a : Address)
      (net : Network) (n : nat) :
  url_pathname js uri = Normal path ->
  scanPath js (split "/" path) emptyAddress = Normal a ->
  repoName a <> "" ->
  run (readResource cfg js uri) net n =
  run (try_catch (resolveView cfg js uri a) (rethrow)) net n.
Proof.
  intros Hpath Hscan Hrepo. unfold readResource.
  rewrite Hpath; cbn [lift bind]. rewrite Hscan; cbn [lift bind].
  apply String.eqb_neq in Hrepo. now rewrite Hrepo.
Qed.

(** *** Listing *)

Lemma run_listResources (net : Network) (n : nat) :
  repository cfg <> "" ->
  run (listResources cfg js) net n =
  match queryOutcome (net n url (request listResourcesQuery)) with
  | Throw e =>
      ([EFetch url (request listResourcesQuery);
        EConsoleError "Error executing SPARQL query:" e;
        EConsoleError "Error listing resources:" e],
       Normal {| resources := [] |})
  | Normal result =>
      match map_completion graphOfBinding (bindings (results result)) with
      | Normal graphs =>
          ([EFetch url (request listResourcesQuery)],
           Normal {| resources := fixedResources cfg js
                                  ++ map (graphResource cfg js) graphs |})
      | Throw e =>
          ([EFetch url (request listResourcesQuery);
            EConsoleError "Error listing resources:" e],
           Normal {| resources := [] |})
      end
  end.
Proof.
  intros Hrepo. unfold listResources.
  apply String.eqb_neq in Hrepo; rewrite Hrepo.
  rewrite run_try_catch, run_bind, run_executeSparqlQuery.
  destruct (queryOutcome _) as [result|e]; [|reflexivity].
  rewrite run_bind, run_lift.
  now destruct (map_completion _ _).
Qed.


(** C5: listing resources never throws.  Without a repository name it
    returns the empty list at once, without a request; when the
    graph-discovery query fails it returns the empty list as well; and
    whatever the network answers, the handler returns a listing. *)
Theorem C5_listing_degrades_to_empty (net : Network) (n : nat) :
  (repository cfg = "" ->
   run (listResources cfg js) net n = ([], Normal {| resources := [] |}))
  /\
  (forall e,
     repository cfg <> "" ->
     queryOutcome (net n url (request listResourcesQuery)) = Throw e ->
     snd (run (listResources cfg js) net n) = Normal {| resources := [] |})
  /\
  (exists evs listing,
     run (listResources cfg js) net n = (evs, Normal listing)).
Proof.
  split; [|split].
  - intros Hrepo. unfold listResources. now rewrite Hrepo.
  - intros e Hrepo Hfail. now rewrite run_listResources, Hfail.
  - destruct (String.eqb_spec (repository cfg) "") as [Hrepo|Hrepo].
    + unfold listResources. rewrite Hrepo; simpl. eauto.
    + rewrite run_listResources by assumption.
      destruct (queryOutcome _) as [result|e]; [|eauto].
      destruct (map_completion _ _); eauto.
Qed.


(** *** Reading *)



(** The index of the answer that follows the requests made so far. *)
Lemma answered_one (n : nat) (u : string) (i : RequestInit) :
  n + answered [EFetch u i] = S n.
Proof. unfold answered; simpl; lia. Qed.

Lemma answered_failure (n : nat) (u l : string) (i : RequestInit)
      (e : JsError) :
  n + answered [EFetch u i; EConsoleError l e] = S n.
Proof. unfold answered; simpl; lia. Qed.

(** Every run of the graph-detail view, by what its three queries give. *)
Lemma run_graphDetailView (uri g : string) (net : Network) (n : nat) :
  let F1 := EFetch url (request (graphSampleQuery g)) in
  let F2 := EFetch url (request (metadataQuery g)) in
  let F3 := EFetch url (request (ontologyQuery g)) in
  let failed e := EConsoleError "Error executing SPARQL query:" e in
  let reported e := EConsoleError "Error reading resource:" e in
  run (try_catch (graphDetailView cfg js uri g) rethrow) net n =
  match queryOutcome (net n url (request (graphSampleQuery g))) with
  | Throw e => ([F1; failed e; reported e], Throw e)
  | Normal result =>
      match queryOutcome (net (S n) url (request (metadataQuery g))) with
      | Throw e => ([F1; F2; failed e; reported e], Throw e)
      | Normal metadataResult =>
          let detail classes :=
            jsonContents js uri
              (PGraphDetail (bindings (results result))
                 (nth_error (bindings (results metadataResult)) 0) classes) in
          match queryOutcome
                  (net (S (S n)) url (request (ontologyQuery g))) with
          | Normal r => ([F1; F2; F3], Normal (detail (bindings (results r))))
          | Throw e => ([F1; F2; F3; failed e], Normal (detail []))
          end
      end
  end.
Proof.
  cbv zeta. unfold graphDetailView.
  rewrite run_try_catch, run_bind, run_executeSparqlQuery.
  destruct (queryOutcome (net n _ _)) as [result|e]; [|reflexivity].
  rewrite answered_one, run_bind, run_executeSparqlQuery.
  destruct (queryOutcome (net (S n) _ _)) as [metadataResult|e];
    [|reflexivity].
  rewrite answered_one, run_bind, run_try_catch, run_bind,
    run_executeSparqlQuery.
  now destruct (queryOutcome (net (S (S n)) _ _)) as [r|e].
Qed.

Lemma resolveView_graph (uri : string) (a : Address) :
  is_view_token (resourceType a) = false ->
  graphUri a <> "" ->
  resolveView cfg js uri a = graphDetailView cfg js uri (graphUri a).
Proof.
  intros Htok Hgraph. unfold resolveView.
  destruct (not_view_token _ Htok) as (-> & -> & -> & ->).
  apply String.eqb_neq in Hgraph. now rewrite Hgraph.
Qed.



(** *** Tools *)

Lemma get_set_prop_other {V : Type} (o : JsObject V) (k k' : string) (v : V) :
  k' <> k -> get_prop (set_prop o k' v) k = get_prop o k.
Proof.
  intros Hne. apply String.eqb_neq in Hne.
  induction o as [|[k0 v0] o IH]; simpl.
  - now rewrite Hne.
  - destruct (k0 =? k') eqn:E; simpl.
    + apply String.eqb_eq in E; subst k0. now rewrite Hne.
    + now rewrite IH.
Qed.

(** The credentials do not touch the requested encoding. *)
Lemma requestHeaders_Accept (accept : string) :
  get_prop (requestHeaders cfg js accept) "Accept" = Some accept.
Proof.
  unfold requestHeaders.
  destruct hasAuth, hasCfAccess;
    now rewrite ?get_set_prop_other by discriminate.
Qed.

Lemma run_rawPassthroughJson (query : JsVal) (net : Network) (n : nat) :
  let init := queryRequest cfg js query "application/sparql-results+json" in
  run (rawPassthroughJson cfg js query) net n =
  ([EFetch url init], Normal (rawAnswer (net n url init))).
Proof.
  unfold rawPassthroughJson, rawQuery, fetch, rawAnswer; simpl.
  destruct (net n _ _) as [e|r]; simpl; [reflexivity|].
  destruct (ok r); simpl; [|reflexivity].
  now destruct (text r).
Qed.

Lemma run_listGraphsTool (net : Network) (n : nat) :
  run (listGraphsTool cfg js) net n =
  match queryOutcome (net n url (request listGraphsQuery)) with
  | Normal result =>
      ([EFetch url (request listGraphsQuery)],
       Normal (toolResult (JSON_stringify js (PResults result)) false))
  | Throw e =>
      ([EFetch url (request listGraphsQuery);
        EConsoleError "Error executing SPARQL query:" e],
       Normal (toolResult ("Error listing graphs: " ++ err_message e) true))
  end.
Proof.
  unfold listGraphsTool.
  rewrite run_try_catch, run_bind, run_executeSparqlQuery.
  now destruct (queryOutcome _).
Qed.

(** Once the rewrite has returned, the query tool answers in band: the
    handler returns a result whatever the network does. *)
Lemma sparqlQueryTool_in_band (arguments : option (JsObject JsVal))
      (query : JsVal) (net : Network) (n : nat) :
  modifiedQuery (argument arguments "query") (argument arguments "graph")
  = Normal query ->
  exists evs answer,
    run (callTool cfg js "sparqlQuery" arguments) net n = (evs, Normal answer).
Proof.
  intros Hq. change (callTool cfg js "sparqlQuery" arguments)
    with (sparqlQueryTool cfg js arguments).
  unfold sparqlQueryTool. rewrite Hq; cbn [lift bind].
  rewrite run_try_catch.
  destruct (negb _).
  - unfold rawQuery. rewrite run_bind. unfold fetch; simpl.
    destruct (net n _ _) as [e|r]; simpl; [eauto|].
    destruct (ok r); simpl; [|eauto].
    destruct (text r); simpl; eauto.
  - unfold typedQuery. rewrite run_bind, run_executeSparqlQuery.
    destruct (queryOutcome _); simpl; eauto.
Qed.

(** C1, at a call that names a graph and no query: the rewrite reads
    [includes] of [undefined] before the [try] is entered, and the
    [TypeError] leaves the handler instead of becoming a result with
    [isError: true]; no request is made.  A query that is a number fails
    in the same place. *)
Theorem C1_rewrite_failure_escapes (net : Network) (n : nat) :
  run (callTool cfg js "sparqlQuery" (Some [("graph", JStr "urn:g")])) net n
  = ([], Throw (TypeError
                  "Cannot read properties of undefined (reading 'includes')"))
  /\
  run (callTool cfg js "sparqlQuery"
         (Some [("query", JNum 5); ("graph", JStr "urn:g")])) net n
  = ([], Throw (TypeError "sparqlQuery.includes is not a function")).
Proof. split; reflexivity. Qed.


(** C10, as the code has it: a call whose rewrite returns and whose format
    is truthy and none of json, xml and csv runs the raw-passthrough path:
    one request, whose Accept header is the JSON results encoding, and the
    body of a successful response returned as literal text. *)
Theorem C10_unknown_format_raw_with_json_accept
        (arguments : option (JsObject JsVal)) (query : JsVal)
        (net : Network) (n : nat) :
  truthy (argument arguments "format") = true ->
  strict_eq_str (argument arguments "format") "json" = false ->
  strict_eq_str (argument arguments "format") "xml" = false ->
  strict_eq_str (argument arguments "format") "csv" = false ->
  modifiedQuery (argument arguments "query") (argument arguments "graph")
  = Normal query ->
  let init := queryRequest cfg js query "application/sparql-results+json" in
  run (callTool cfg js "sparqlQuery" arguments) net n
  = run (rawPassthroughJson cfg js query) net n
  /\ run (callTool cfg js "sparqlQuery" arguments) net n
     = ([EFetch url init], Normal (rawAnswer (net n url init)))
  /\ get_prop (headers init) "Accept" = Some "application/sparql-results+json".
Proof.
  intros Htruthy Hjson Hxml Hcsv Hq init.
  assert (Hraw : run (callTool cfg js "sparqlQuery" arguments) net n
                 = run (rawPassthroughJson cfg js query) net n).
  { change (callTool cfg js "sparqlQuery" arguments)
      with (sparqlQueryTool cfg js arguments).
    unfold sparqlQueryTool. rewrite Hq, Htruthy; cbn [lift bind].
    now rewrite Hjson, Hxml, Hcsv. }
  repeat split.
  - exact Hraw.
  - rewrite Hraw. apply run_rawPassthroughJson.
  - apply requestHeaders_Accept.
Qed.

End Handlers.

(** ** The properties at work on the demo server *)



Lemma modifiedQuery_example :
  modifiedQuery (JStr "SELECT * WHERE { ?s ?p ?o }") (JStr "urn:g")
  = Normal (JStr "SELECT * FROM <urn:g> WHERE { ?s ?p ?o }").
Proof. vm_compute. reflexivity. Qed.

Lemma modifiedQuery_twice_example :
  cbind (modifiedQuery (JStr "SELECT * WHERE { ?s ?p ?o }") (JStr "urn:g"))
        (fun q' => modifiedQuery q' (JStr "urn:g"))
  = Normal (JStr "SELECT * FROM <urn:g> WHERE { ?s ?p ?o }").
Proof. vm_compute. reflexivity. Qed.

Lemma C5_listing_degrades_to_empty_witness :
  repository demoConfig <> ""
  /\ queryOutcome
       (downNetwork 0 (repositoryUrl demoConfig)
          (queryRequest demoConfig demoPlatform (JStr listResourcesQuery)
             default_accept))
     = Throw (Error "GraphDB query failed: 500 Internal Server Error")
  /\ snd (run (listResources demoConfig demoPlatform) downNetwork 0)
     = Normal {| resources := [] |}.
Proof.
  assert (Hrepo : repository demoConfig <> "") by discriminate.
  split; [exact Hrepo|]. split; [reflexivity|].
  destruct (C5_listing_degrades_to_empty demoConfig demoPlatform downNetwork 0)
    as (_ & Hfail & _).
  apply (Hfail (Error "GraphDB query failed: 500 Internal Server Error"));
    [exact Hrepo | reflexivity].
Defined.





(** C10 as stated fails: a format that is present and empty is none of
    json, xml and csv, yet the call goes through the typed JSON path.  On
    a body that is not JSON it answers with an error, where raw passthrough
    returns the body. *)
Lemma C10_empty_format_takes_typed_path :
  let arguments :=
    Some [("query", JStr "SELECT * WHERE { ?s ?p ?o }"); ("format", JStr "")] in
  get_prop [("query", JStr "SELECT * WHERE { ?s ?p ?o }"); ("format", JStr "")]
    "format" = Some (JStr "")
  /\ strict_eq_str (argument arguments "format") "json" = false
  /\ strict_eq_str (argument arguments "format") "xml" = false
  /\ strict_eq_str (argument arguments "format") "csv" = false
  /\ snd (run (callTool demoConfig demoPlatform "sparqlQuery" arguments)
            csvNetwork 0)
     = Normal (toolResult
                 "Error executing query: Unexpected token 's', is not valid JSON"
                 true)
  /\ snd (run (rawPassthroughJson demoConfig demoPlatform
                 (JStr "SELECT * WHERE { ?s ?p ?o }")) csvNetwork 0)
     = Normal (toolResult "s,p,o" false)
  /\ run (callTool demoConfig demoPlatform "sparqlQuery" arguments)
       csvNetwork 0
     <> run (rawPassthroughJson demoConfig demoPlatform
               (JStr "SELECT * WHERE { ?s ?p ?o }")) csvNetwork 0.
Proof.
  cbv zeta. repeat apply conj; try (vm_compute; reflexivity).
  vm_compute. discriminate.
Qed.

Lemma C10_unknown_format_raw_with_json_accept_witness :
  let arguments :=
    Some [("query", JStr "SELECT * WHERE { ?s ?p ?o }");
          ("format", JStr "turtle")] in
  truthy (argument arguments "format") = true
  /\ snd (run (callTool demoConfig demoPlatform "sparqlQuery" arguments)
            csvNetwork 0)
     = Normal (toolResult "s,p,o" false).
Proof.
  cbv zeta. split; [reflexivity|].
  destruct (C10_unknown_format_raw_with_json_accept
              demoConfig demoPlatform
              (Some [("query", JStr "SELECT * WHERE { ?s ?p ?o }");
                     ("format", JStr "turtle")])
              (JStr "SELECT * WHERE { ?s ?p ?o }") csvNetwork 0
              eq_refl eq_refl eq_refl eq_refl eq_refl)
    as (_ & Hrun & _).
  rewrite Hrun. reflexivity.
Defined.

(** * Further properties of the handlers *)

(** ** The contract of a run *)

Section Contracts.

Variable P : string -> RequestInit -> Prop.

Lemma Meets_more {A : Type} (Q : A -> Prop) (k k' : nat) (p : Async A) :
  Meets P Q k p -> k <= k' -> Meets P Q k' p.
Proof.
  intros H; revert k'.
  induction H as [k a Ha|k e|k u i cont HP _ IH|k l e p _ IH]; intros k' Hle.
  - now constructor.
  - constructor.
  - destruct k' as [|k']; [lia|].
    constructor; [exact HP|]. intros o. apply IH. lia.
  - constructor. now apply IH.
Qed.

Lemma Meets_implies {A : Type} (Q Q' : A -> Prop) (k : nat) (p : Async A) :
  (forall a, Q a -> Q' a) -> Meets P Q k p -> Meets P Q' k p.
Proof.
  intros HQ H.
  induction H as [k a Ha|k e|k u i cont HP _ IH|k l e p _ IH];
    constructor; auto.
Qed.

Lemma Meets_bind {A B : Type} (Q1 : A -> Prop) (Q2 : B -> Prop) (k1 k2 : nat)
      (p : Async A) (f : A -> Async B) :
  Meets P Q1 k1 p ->
  (forall a, Q1 a -> Meets P Q2 k2 (f a)) ->
  Meets P Q2 (k1 + k2) (bind p f).
Proof.
  intros H Hf.
  induction H as [k a Ha|k e|k u i cont HP _ IH|k l e p _ IH]; simpl.
  - apply Meets_more with (k := k2); [auto | lia].
  - constructor.
  - constructor; [exact HP | exact IH].
  - constructor. exact IH.
Qed.

Lemma Meets_try_catch {A : Type} (Q : A -> Prop) (k1 k2 : nat)
      (p : Async A) (h : JsError -> Async A) :
  Meets P Q k1 p ->
  (forall e, Meets P Q k2 (h e)) ->
  Meets P Q (k1 + k2) (try_catch p h).
Proof.
  intros H Hh.
  induction H as [k a Ha|k e|k u i cont HP _ IH|k l e p _ IH]; simpl.
  - now constructor.
  - apply Meets_more with (k := k2); [auto | lia].
  - constructor; [exact HP | exact IH].
  - constructor. exact IH.
Qed.

Lemma Meets_lift {A : Type} (Q : A -> Prop) (c : Completion A) :
  (forall a, c = Normal a -> Q a) -> Meets P Q 0 (lift c).
Proof. destruct c; intros H; constructor; auto. Qed.

(** What a contract says of a run. *)
Lemma Meets_run {A : Type} (Q : A -> Prop) (k : nat) (p : Async A) :
  Meets P Q k p ->
  forall net n,
    Forall (request_meets P) (fst (run p net n))
    /\ answered (fst (run p net n)) <= k
    /\ forall a, snd (run p net n) = Normal a -> Q a.
Proof.
  induction 1 as [k a Ha|k e|k u i cont HP _ IH|k l e p _ IH];
    intros net n; simpl.
  - repeat split; [constructor | unfold answered; simpl; lia |].
    now intros a' [= <-].
  - repeat split; [constructor | unfold answered; simpl; lia | discriminate].
  - destruct (IH (net n u i) net (S n)) as (Hall & Hcount & Hret).
    destruct (run (cont (net n u i)) net (S n)) as [evs c]; simpl in *.
    repeat split; [now constructor | unfold answered in *; simpl; lia | exact Hret].
  - destruct (IH net n) as (Hall & Hcount & Hret).
    destruct (run p net n) as [evs c]; simpl in *.
    repeat split; [now constructor | exact Hcount | exact Hret].
Qed.

End Contracts.

(** ** Every handler against its contract *)

Section Coverage.

Variable cfg : Config.
Variable js : Platform.

Local Abbreviation url := (repositoryUrl cfg).
Local Abbreviation post := (repositoryPost cfg js).

Lemma queryRequest_post (query : JsVal) (accept : string) :
  post url (queryRequest cfg js query accept).
Proof. repeat split. now exists accept. Qed.

Lemma Meets_fetch (query : JsVal) (accept : string) :
  Meets post (fun _ => True) 1 (fetch url (queryRequest cfg js query accept)).
Proof.
  constructor; [apply queryRequest_post|].
  intros [e|r]; now constructor.
Qed.

Lemma Meets_executeSparqlQuery (query : JsVal) (accept : string) :
  Meets post (fun _ => True) 1 (executeSparqlQuery cfg js query accept).
Proof.
  unfold executeSparqlQuery. change 1 with ((1 + 0) + 0).
  apply Meets_try_catch.
  - apply Meets_bind with (Q1 := fun _ => True); [apply Meets_fetch|].
    intros response _. destruct (negb (ok response)); [constructor|].
    now apply Meets_lift.
  - intros e. repeat constructor.
Qed.

(** A view that makes one query and returns its result. *)
Lemma Meets_single_view (uri query : string) :
  Meets post (contentsFor uri) 1
    (result <- executeSparqlQuery cfg js (JStr query) default_accept ;;
     Return (jsonContents js uri (PResults result))).
Proof.
  change 1 with (1 + 0).
  apply Meets_bind with (Q1 := fun _ => True);
    [apply Meets_executeSparqlQuery|].
  intros result _. constructor. now eexists.
Qed.

Lemma Meets_statsView (uri : string) :
  Meets post (contentsFor uri) 2 (statsView cfg js uri).
Proof.
  unfold statsView. change 2 with (1 + (1 + (0 + 0))).
  apply Meets_bind with (Q1 := fun _ => True);
    [apply Meets_executeSparqlQuery|]; intros result _.
  apply Meets_bind with (Q1 := fun _ => True);
    [apply Meets_executeSparqlQuery|]; intros graphResult _.
  apply Meets_bind with (Q1 := fun _ => True); [now apply Meets_lift|].
  intros combined _. constructor. now eexists.
Qed.

Lemma Meets_graphDetailView (uri g : string) :
  Meets post (contentsFor uri) 3 (graphDetailView cfg js uri g).
Proof.
  unfold graphDetailView. change 3 with (1 + (1 + (((1 + 0) + 0) + 0))).
  apply Meets_bind with (Q1 := fun _ => True);
    [apply Meets_executeSparqlQuery|]; intros result _.
  apply Meets_bind with (Q1 := fun _ => True);
    [apply Meets_executeSparqlQuery|]; intros metadataResult _.
  apply Meets_bind with (Q1 := fun _ => True).
  - apply Meets_try_catch; [|now constructor].
    apply Meets_bind with (Q1 := fun _ => True);
      [apply Meets_executeSparqlQuery|].
    now constructor.
  - intros ontologyResult _. constructor. now eexists.
Qed.

Lemma Meets_resolveView (uri : string) (a : Address) :
  Meets post (contentsFor uri) 3 (resolveView cfg js uri a).
Proof.
  unfold resolveView.
  destruct (resourceType a =? CLASS_LIST_PATH);
    [apply Meets_more with (k := 1); [apply Meets_single_view | lia]|].
  destruct (resourceType a =? PREDICATES_PATH);
    [apply Meets_more with (k := 1); [apply Meets_single_view | lia]|].
  destruct (resourceType a =? STATS_PATH);
    [apply Meets_more with (k := 2); [apply Meets_statsView | lia]|].
  destruct (resourceType a =? SAMPLE_DATA_PATH);
    [apply Meets_more with (k := 1); [apply Meets_single_view | lia]|].
  destruct (negb (graphUri a =? "")); [apply Meets_graphDetailView|].
  constructor.
Qed.

Lemma Meets_readResource (uri : string) :
  Meets post (contentsFor uri) 3 (readResource cfg js uri).
Proof.
  unfold readResource. change 3 with (0 + (0 + (3 + 0))).
  apply Meets_bind with (Q1 := fun _ => True); [now apply Meets_lift|].
  intros pathname _.
  apply Meets_bind with (Q1 := fun _ => True); [now apply Meets_lift|].
  intros a _. destruct (repoName a =? ""); [constructor|].
  apply Meets_try_catch; [apply Meets_resolveView|].
  intros e. repeat constructor.
Qed.

Lemma Meets_listResources :
  Meets post (fun _ => True) 1 (listResources cfg js).
Proof.
  unfold listResources. destruct (repository cfg =? ""); [now constructor|].
  change 1 with ((1 + (0 + 0)) + 0).
  apply Meets_try_catch; [|intros e; now repeat constructor].
  apply Meets_bind with (Q1 := fun _ => True);
    [apply Meets_executeSparqlQuery|]; intros result _.
  apply Meets_bind with (Q1 := fun _ => True); [now apply Meets_lift|].
  now constructor.
Qed.

Lemma Meets_callTool (name : string) (arguments : option (JsObject JsVal)) :
  Meets post singleText 1 (callTool cfg js name arguments).
Proof.
  unfold callTool.
  destruct (name =? "sparqlQuery"); [|destruct (name =? "listGraphs")].
  - unfold sparqlQueryTool. change 1 with (0 + (1 + 0)).
    apply Meets_bind with (Q1 := fun _ => True); [now apply Meets_lift|].
    intros query _.
    apply Meets_try_catch;
      [|intros e; constructor; now eexists].
    destruct (negb _).
    + unfold rawQuery. change 1 with (1 + (0 + 0)).
      apply Meets_bind with (Q1 := fun _ => True); [apply Meets_fetch|].
      intros response _. destruct (negb (ok response)); [constructor|].
      apply Meets_bind with (Q1 := fun _ => True); [now apply Meets_lift|].
      intros t _. constructor. now eexists.
    + unfold typedQuery. change 1 with (1 + 0).
      apply Meets_bind with (Q1 := fun _ => True);
        [apply Meets_executeSparqlQuery|].
      intros result _. constructor. now eexists.
  - unfold listGraphsTool. change 1 with ((1 + 0) + 0).
    apply Meets_try_catch;
      [|intros e; constructor; now eexists].
    apply Meets_bind with (Q1 := fun _ => True);
      [apply Meets_executeSparqlQuery|].
    intros result _. constructor. now eexists.
  - constructor.
Qed.

(** X1: every request any of the three handlers makes is a POST to the URL
    of the configured repository, with the headers of [requestHeaders] for
    some requested encoding; no handler talks to another address. *)
Theorem X1_every_request_is_a_repository_post
        (uri name : string) (arguments : option (JsObject JsVal))
        (net : Network) (n : nat) :
  Forall (request_meets (repositoryPost cfg js))
    (fst (run (readResource cfg js uri) net n))
  /\ Forall (request_meets (repositoryPost cfg js))
       (fst (run (listResources cfg js) net n))
  /\ Forall (request_meets (repositoryPost cfg js))
       (fst (run (callTool cfg js name arguments) net n)).
Proof.
  split; [|split].
  - apply (Meets_run _ _ _ _ (Meets_readResource uri) net n).
  - apply (Meets_run _ _ _ _ Meets_listResources net n).
  - apply (Meets_run _ _ _ _ (Meets_callTool name arguments) net n).
Qed.

(** X2: nothing is retried or repeated: a read makes at most three
    requests, a listing at most one and a tool call at most one, whatever
    the network answers. *)
Theorem X2_request_bounds
        (uri name : string) (arguments : option (JsObject JsVal))
        (net : Network) (n : nat) :
  answered (fst (run (readResource cfg js uri) net n)) <= 3
  /\ answered (fst (run (listResources cfg js) net n)) <= 1
  /\ answered (fst (run (callTool cfg js name arguments) net n)) <= 1.
Proof.
  split; [|split].
  - apply (Meets_run _ _ _ _ (Meets_readResource uri) net n).
  - apply (Meets_run _ _ _ _ Meets_listResources net n).
  - apply (Meets_run _ _ _ _ (Meets_callTool name arguments) net n).
Qed.

(** X3: a read that returns, returns exactly one content item, which
    carries the requested uri unchanged and the media type
    application/json, whichever view served it. *)
Theorem X3_read_returns_one_json_item
        (uri : string) (net : Network) (n : nat) (r : ReadResourceResult) :
  snd (run (readResource cfg js uri) net n) = Normal r ->
  exists t, contents r = [ {| rc_uri := uri;
                              rc_mimeType := "application/json";
                              rc_text := t |} ].
Proof.
  apply (Meets_run _ _ _ _ (Meets_readResource uri) net n).
Qed.

(** X4: a tool call that returns, with or without [isError], returns
    exactly one content item, of type text. *)
Theorem X4_tool_returns_one_text_item
        (name : string) (arguments : option (JsObject JsVal))
        (net : Network) (n : nat) (r : ToolResult) :
  snd (run (callTool cfg js name arguments) net n) = Normal r ->
  exists t, content r = [ {| tc_type := "text"; tc_text := t |} ].
Proof.
  apply (Meets_run _ _ _ _ (Meets_callTool name arguments) net n).
Qed.

(** ** The query tool, path by path *)

Lemma run_rawQuery_caught (query : JsVal) (accept : string)
      (net : Network) (n : nat) :
  let init := queryRequest cfg js query accept in
  run (try_catch (rawQuery cfg js query accept)
         (fun error => Return (queryError error))) net n
  = ([EFetch url init], Normal (rawAnswer (net n url init))).
Proof.
  unfold rawQuery, fetch, rawAnswer; simpl.
  destruct (net n _ _) as [e|r]; simpl; [reflexivity|].
  destruct (ok r); simpl; [|reflexivity].
  now destruct (text r).
Qed.

Lemma run_typedQuery_caught (query : JsVal) (accept : string)
      (net : Network) (n : nat) :
  let init := queryRequest cfg js query accept in
  fetches (fst (run (try_catch (typedQuery cfg js query accept)
                       (fun error => Return (queryError error))) net n))
  = [EFetch url init]
  /\ snd (run (try_catch (typedQuery cfg js query accept)
                 (fun error => Return (queryError error))) net n)
     = Normal (typedAnswer js (net n url init)).
Proof.
  unfold typedQuery, typedAnswer; cbv zeta.
  rewrite run_try_catch, run_bind, run_executeSparqlQuery.
  now destruct (queryOutcome _).
Qed.

(** The query tool once its rewrite has returned. *)
Lemma run_sparqlQueryTool (arguments : option (JsObject JsVal))
      (query : JsVal) (net : Network) (n : nat) :
  modifiedQuery (argument arguments "query") (argument arguments "graph")
  = Normal query ->
  let format := formatOf arguments in
  let init := queryRequest cfg js query (acceptHeaderOf format) in
  fetches (fst (run (callTool cfg js "sparqlQuery" arguments) net n))
  = [EFetch url init]
  /\ snd (run (callTool cfg js "sparqlQuery" arguments) net n)
     = Normal (if strict_eq_str format "json"
               then typedAnswer js (net n url init)
               else rawAnswer (net n url init)).
Proof.
  intros Hq format init.
  change (callTool cfg js "sparqlQuery" arguments)
    with (sparqlQueryTool cfg js arguments).
  unfold sparqlQueryTool. rewrite Hq; cbn [lift bind].
  fold (formatOf arguments); fold format.
  fold (acceptHeaderOf format).
  destruct (strict_eq_str format "json"); cbn [negb].
  - apply run_typedQuery_caught.
  - change (fun error => Return (toolResult _ true))
      with (fun error => Return (A := ToolResult) (queryError error)).
    rewrite run_rawQuery_caught. now split.
Qed.

(** X5: when the endpoint answers a query-tool request with a status that
    is not a success, on either path, the tool returns [isError: true] with
    the text "Error executing query: GraphDB query failed: " followed by
    the status code and the status text; the body is not looked at. *)
Theorem X5_query_tool_reports_http_status
        (arguments : option (JsObject JsVal)) (query : JsVal)
        (net : Network) (n : nat) (r : Response) :
  modifiedQuery (argument arguments "query") (argument arguments "graph")
  = Normal query ->
  net n (repositoryUrl cfg)
    (queryRequest cfg js query (acceptHeaderOf (formatOf arguments)))
  = Resolved r ->
  ok r = false ->
  snd (run (callTool cfg js "sparqlQuery" arguments) net n)
  = Normal (toolResult
              ("Error executing query: GraphDB query failed: "
               ++ string_of_nat (status r) ++ " " ++ statusText r) true).
Proof.
  intros Hq Hnet Hok.
  destruct (run_sparqlQueryTool arguments query net n Hq) as [_ ->].
  unfold typedAnswer, rawAnswer, queryOutcome. rewrite Hnet, Hok.
  now destruct (strict_eq_str _ _).
Qed.




(** X8: the listGraphs tool ignores its arguments, makes exactly one
    request, never throws, and sets [isError] exactly when the query
    failed: the serialised result on success, "Error listing graphs: "
    and the failure's message otherwise. *)
Theorem X8_listGraphs_answers_in_band
        (arguments : option (JsObject JsVal)) (net : Network) (n : nat) :
  let init := queryRequest cfg js (JStr listGraphsQuery) default_accept in
  fetches (fst (run (callTool cfg js "listGraphs" arguments) net n))
  = [EFetch (repositoryUrl cfg) init]
  /\ snd (run (callTool cfg js "listGraphs" arguments) net n)
     = Normal (match queryOutcome (net n (repositoryUrl cfg) init) with
               | Normal result =>
                   toolResult (JSON_stringify js (PResults result)) false
               | Throw e =>
                   toolResult ("Error listing graphs: " ++ err_message e) true
               end).
Proof.
  cbv zeta.
  change (callTool cfg js "listGraphs" arguments) with (listGraphsTool cfg js).
  rewrite run_listGraphsTool. now destruct (queryOutcome _).
Qed.



(** ** The rewrite on every value *)

(** X10: the graph-scoping rewrite is idempotent on every query value and
    every graph value: applying it to its own result changes nothing, and
    a throw stays the same throw. *)
Theorem X10_rewrite_idempotent_on_every_value (v graph : JsVal) :
  cbind (modifiedQuery v graph) (fun v' => modifiedQuery v' graph)
  = modifiedQuery v graph.
Proof.
  destruct v as [| |b|z|q|l|o]; try apply modifiedQuery_twice;
    unfold modifiedQuery; simpl; destruct (truthy graph) eqn:Hg; simpl;
    rewrite ?Hg; simpl; try reflexivity.
  destruct (arr_includes l "FROM <") eqn:Hfrom; simpl;
    rewrite ?Hg, ?Hfrom; simpl; try reflexivity.
  destruct (arr_includes l "GRAPH <") eqn:Hgraph; simpl;
    rewrite ?Hg, ?Hfrom, ?Hgraph; simpl; try reflexivity.
  destruct (arr_indexOf l "WHERE" >? 0)%Z eqn:Hpos; simpl;
    rewrite ?Hg, ?Hfrom, ?Hgraph; simpl; rewrite ?Hpos; reflexivity.
Qed.


(** ** Tools listed and tools served *)

Lemma modifiedQuery_throws_TypeError (v graph : JsVal) (e : JsError) :
  modifiedQuery v graph = Throw e -> err_name e = "TypeError".
Proof.
  unfold modifiedQuery.
  destruct (truthy graph); [|discriminate].
  destruct v as [| |b|z|q|l|o]; simpl;
    try (now intros [= <-]).
  - destruct (includes q "FROM <"); simpl; [discriminate|].
    destruct (includes q "GRAPH <"); simpl; [discriminate|].
    destruct (indexOf q "WHERE" >? 0)%Z; discriminate.
  - destruct (arr_includes l "FROM <"); simpl; [discriminate|].
    destruct (arr_includes l "GRAPH <"); simpl; [discriminate|].
    destruct (arr_indexOf l "WHERE" >? 0)%Z; simpl; [|discriminate].
    now intros [= <-].
Qed.

(** X12: the tools that [listTools] advertises are the tools that
    [callTool] serves: a call is refused with "Unknown tool: " and the
    name, before any request, exactly when the name is not one of the
    advertised ones. *)
Theorem X12_unknown_tool_iff_not_listed
        (name : string) (arguments : option (JsObject JsVal))
        (net : Network) (n : nat) :
  run (callTool cfg js name arguments) net n
  = ([], Throw (Error ("Unknown tool: " ++ name)))
  <-> ~ In name (map tool_name listTools).
Proof.
  simpl. split.
  - intros Hrun [<- | [<- | []]].
    + change (callTool cfg js "sparqlQuery" arguments)
        with (sparqlQueryTool cfg js arguments) in Hrun.
      unfold sparqlQueryTool in Hrun.
      destruct (modifiedQuery _ _) as [query|e] eqn:Hq.
      * destruct (sparqlQueryTool_in_band cfg js arguments query net n Hq)
          as (evs & answer & Hin).
        change (callTool cfg js "sparqlQuery" arguments)
          with (sparqlQueryTool cfg js arguments) in Hin.
        unfold sparqlQueryTool in Hin. rewrite Hq in Hin.
        rewrite Hin in Hrun. discriminate.
      * apply modifiedQuery_throws_TypeError in Hq.
        simpl in Hrun. injection Hrun as Hrun. rewrite Hrun in Hq.
        discriminate.
    + change (callTool cfg js "listGraphs" arguments)
        with (listGraphsTool cfg js) in Hrun.
      rewrite run_listGraphsTool in Hrun.
      destruct (queryOutcome _); discriminate.
  - intros Hnot. unfold callTool.
    destruct (String.eqb_spec name "sparqlQuery") as [->|_];
      [elim Hnot; now left|].
    destruct (String.eqb_spec name "listGraphs") as [->|_];
      [elim Hnot; right; now left|].
    reflexivity.
Qed.

(** ** Credentials *)

(** X14: credentials travel as pairs.  The Authorization header is sent
    exactly when the user name and the password are both non-empty, and
    then holds "Basic " and the base64 of name:password; the two access
    headers are sent exactly when the client id and the client secret are
    both non-empty.  The content type is always that of a SPARQL query. *)
Theorem X14_credentials_only_as_pairs (accept : string) :
  let sent := requestHeaders cfg js accept in
  get_prop sent "Content-Type" = Some "application/sparql-query"
  /\ get_prop sent "Authorization"
     = (if (username cfg =? "") || (password cfg =? "") then None
        else Some ("Basic "
                   ++ base64 js (username cfg ++ ":" ++ password cfg)))
  /\ get_prop sent "CF-Access-Client-Id"
     = (if (cfAccessClientId cfg =? "") || (cfAccessClientSecret cfg =? "")
        then None else Some (cfAccessClientId cfg))
  /\ get_prop sent "CF-Access-Client-Secret"
     = (if (cfAccessClientId cfg =? "") || (cfAccessClientSecret cfg =? "")
        then None else Some (cfAccessClientSecret cfg)).
Proof.
  unfold requestHeaders, hasAuth, hasCfAccess.
  destruct (username cfg =? ""), (password cfg =? ""),
    (cfAccessClientId cfg =? ""), (cfAccessClientSecret cfg =? "");
    simpl; repeat split; reflexivity.
Qed.

(** ** The statistics view on short results *)

Lemma run_statsView (uri : string) (net : Network) (n : nat) :
  let F1 := EFetch url (queryRequest cfg js (JStr statsQuery) default_accept) in
  let F2 := EFetch url (queryRequest cfg js (JStr graphQuery) default_accept) in
  let failed e := EConsoleError "Error executing SPARQL query:" e in
  let reported e := EConsoleError "Error reading resource:" e in
  run (try_catch (statsView cfg js uri) rethrow) net n =
  match queryOutcome
          (net n url (queryRequest cfg js (JStr statsQuery) default_accept)) with
  | Throw e => ([F1; failed e; reported e], Throw e)
  | Normal result =>
      match queryOutcome
              (net (S n) url
                 (queryRequest cfg js (JStr graphQuery) default_accept)) with
      | Throw e => ([F1; F2; failed e; reported e], Throw e)
      | Normal graphResult =>
          match combineStatistics result graphResult with
          | Normal combined => ([F1; F2], Normal (jsonContents js uri combined))
          | Throw e => ([F1; F2; reported e], Throw e)
          end
      end
  end.
Proof.
  cbv zeta. unfold statsView.
  rewrite run_try_catch, run_bind, run_executeSparqlQuery.
  destruct (queryOutcome (net n _ _)) as [result|e]; [|reflexivity].
  rewrite answered_one, run_bind, run_executeSparqlQuery.
  destruct (queryOutcome (net (S n) _ _)) as [graphResult|e]; [|reflexivity].
  rewrite answered_one, run_bind, run_lift.
  now destruct (combineStatistics result graphResult).
Qed.

(** X15: the statistics view treats its two results differently when they
    have no row.  A counts result without rows is tolerated: the object
    then holds the [graphs] member alone.  A graph-count result without
    rows makes the read fail, after both requests, with the [TypeError] of
    reading [graphs] of [undefined]. *)
Theorem X15_statistics_on_results_without_rows
        (uri path : string) (a : Address) (net : Network) (n : nat)
        (result graphResult : SparqlResults) :
  url_pathname js uri = Normal path ->
  scanPath js (split "/" path) emptyAddress = Normal a ->
  repoName a <> "" ->
  resourceType a = STATS_PATH ->
  queryOutcome
    (net n (repositoryUrl cfg)
       (queryRequest cfg js (JStr statsQuery) default_accept))
  = Normal result ->
  queryOutcome
    (net (S n) (repositoryUrl cfg)
       (queryRequest cfg js (JStr graphQuery) default_accept))
  = Normal graphResult ->
  (forall row rest,
     bindings (results result) = [] ->
     bindings (results graphResult) = row :: rest ->
     snd (run (readResource cfg js uri) net n)
     = Normal (jsonContents js uri
                 (PStatistics [("graphs", get_prop row "graphs")])))
  /\
  (bindings (results graphResult) = [] ->
   snd (run (readResource cfg js uri) net n)
   = Throw (TypeError
              "Cannot read properties of undefined (reading 'graphs')")
   /\ answered (fst (run (readResource cfg js uri) net n)) = 2).
Proof.
  intros Hpath Hscan Hrepo Htype Hres Hgraphs.
  rewrite (run_readResource _ _ _ _ _ _ _ Hpath Hscan Hrepo).
  unfold resolveView; rewrite Htype.
  change (if STATS_PATH =? CLASS_LIST_PATH then _ else _)
    with (statsView cfg js uri).
  rewrite run_statsView, Hres, Hgraphs. unfold combineStatistics.
  split.
  - intros row rest -> ->. reflexivity.
  - intros ->. split; reflexivity.
Qed.

(** ** A listing row without a graph *)

Lemma map_graphOfBinding_missing (bs : list SparqlBinding) :
  (exists b, In b bs /\ get_prop b "graph" = None) ->
  map_completion graphOfBinding bs
  = Throw (TypeError "Cannot read properties of undefined (reading 'value')").
Proof.
  induction bs as [|b bs IH]; intros (b' & Hin & Hnone); [destruct Hin|].
  cbn [map_completion]. unfold graphOfBinding at 1.
  destruct (get_prop b "graph") as [term|] eqn:Hb; [|reflexivity].
  destruct Hin as [-> | Hin]; [congruence|].
  cbn [cbind]. rewrite IH by eauto. reflexivity.
Qed.

(** X16: a listing is all or nothing.  If one row of the graph-discovery
    result has no [graph] member, the handler returns the empty listing:
    neither the four fixed views nor the graphs of the other rows are
    listed. *)
Theorem X16_listing_row_without_graph_empties_listing
        (net : Network) (n : nat) (result : SparqlResults)
        (binding : SparqlBinding) :
  repository cfg <> "" ->
  queryOutcome
    (net n (repositoryUrl cfg)
       (queryRequest cfg js (JStr listResourcesQuery) default_accept))
  = Normal result ->
  In binding (bindings (results result)) ->
  get_prop binding "graph" = None ->
  snd (run (listResources cfg js) net n) = Normal {| resources := [] |}.
Proof.
  intros Hrepo Hres Hin Hnone.
  rewrite run_listResources, Hres by assumption.
  rewrite map_graphOfBinding_missing by eauto. reflexivity.
Qed.

(** ** Addresses that name nothing *)


Lemma scanPath_keeps_graphUri (segments : list string) (a0 a : Address) :
  ~ In GRAPH_PATH (removelast segments) ->
  scanPath js segments a0 = Normal a ->
  graphUri a = graphUri a0.
Proof.
  revert a0; induction segments as [|c rest IH]; intros a0 Hnot;
    cbn [scanPath].
  - now intros [= <-].
  - destruct rest as [|c' rest'].
    + cbn [andb]. rewrite !andb_false_r.
      destruct (is_view_token c); simpl; now intros [= <-].
    + assert (Hc : (c =? GRAPH_PATH) = false).
      { apply String.eqb_neq. intros ->. apply Hnot. now left. }
      assert (Hrest : ~ In GRAPH_PATH (removelast (c' :: rest'))).
      { intros Hin. apply Hnot. now right. }
      rewrite Hc; cbn [andb].
      destruct ((c =? REPOSITORY_PATH) && true); simpl.
      * intros H. now rewrite (IH _ Hrest H).
      * destruct (is_view_token c); simpl;
          intros H; now rewrite (IH _ Hrest H).
Qed.

Lemma last_view_token_none (segments : list string) (d : string) :
  existsb is_view_token segments = false ->
  last_view_token segments d = d.
Proof.
  revert d; induction segments as [|c rest IH]; intros d; simpl;
    [reflexivity|].
  rewrite orb_false_iff. intros [-> Hrest]. now apply IH.
Qed.


(** X18: an address that names a repository but has neither a view-kind
    token nor a [graph] marker followed by a segment is refused with
    "Invalid resource URI": no request is made, and the error is written
    to the console once and thrown. *)
Theorem X18_read_without_view_or_graph
        (uri path : string) (a : Address) (net : Network) (n : nat) :
  url_pathname js uri = Normal path ->
  scanPath js (split "/" path) emptyAddress = Normal a ->
  repoName a <> "" ->
  existsb is_view_token (split "/" path) = false ->
  ~ In GRAPH_PATH (removelast (split "/" path)) ->
  run (readResource cfg js uri) net n
  = ([EConsoleError "Error reading resource:" (Error "Invalid resource URI")],
     Throw (Error "Invalid resource URI")).
Proof.
  intros Hpath Hscan Hrepo Hnone Hgraph.
  rewrite (run_readResource _ _ _ _ _ _ _ Hpath Hscan Hrepo).
  pose proof (scanPath_resourceType _ _ _ _ Hscan) as Htype.
  rewrite (last_view_token_none _ _ Hnone) in Htype.
  pose proof (scanPath_keeps_graphUri _ _ _ Hgraph Hscan) as Huri.
  unfold resolveView. rewrite Htype, Huri. reflexivity.
Qed.

(** ** From the listing to the read *)











(** ** The graph-detail view when every query succeeds *)

Lemma includes_between (a p q r b : string) :
  includes (a ++ p ++ q ++ r ++ b) (p ++ q ++ r) = true.
Proof.
  replace (a ++ p ++ q ++ r ++ b) with (a ++ (p ++ q ++ r) ++ b)
    by now rewrite !append_assoc.
  apply includes_append.
Qed.

(** X22: a graph-detail read whose three queries succeed makes exactly
    three requests, in the order sample rows, counts, ontology classes;
    each of the three query texts holds the clause [FROM <g>] for the
    graph identifier of the address; and the object returned has the rows
    of the first result, the first row of the second and the rows of the
    third. *)
Theorem X22_graph_detail_three_scoped_queries
        (uri path : string) (a : Address) (net : Network) (n : nat)
        (result metadataResult ontologyResult : SparqlResults) :
  url_pathname js uri = Normal path ->
  scanPath js (split "/" path) emptyAddress = Normal a ->
  repoName a <> "" ->
  is_view_token (resourceType a) = false ->
  graphUri a <> "" ->
  let g := graphUri a in
  let ask q := queryRequest cfg js (JStr q) default_accept in
  queryOutcome (net n (repositoryUrl cfg) (ask (graphSampleQuery g)))
  = Normal result ->
  queryOutcome (net (S n) (repositoryUrl cfg) (ask (metadataQuery g)))
  = Normal metadataResult ->
  queryOutcome (net (S (S n)) (repositoryUrl cfg) (ask (ontologyQuery g)))
  = Normal ontologyResult ->
  run (readResource cfg js uri) net n
  = ([EFetch (repositoryUrl cfg) (ask (graphSampleQuery g));
      EFetch (repositoryUrl cfg) (ask (metadataQuery g));
      EFetch (repositoryUrl cfg) (ask (ontologyQuery g))],
     Normal (jsonContents js uri
               (PGraphDetail (bindings (results result))
                  (nth_error (bindings (results metadataResult)) 0)
                  (bindings (results ontologyResult)))))
  /\ includes (graphSampleQuery g) ("FROM <" ++ g ++ ">") = true
  /\ includes (metadataQuery g) ("FROM <" ++ g ++ ">") = true
  /\ includes (ontologyQuery g) ("FROM <" ++ g ++ ">") = true.
Proof.
  intros Hpath Hscan Hrepo Htok Hgraph g ask H1 H2 H3.
  split.
  - rewrite (run_readResource _ _ _ _ _ _ _ Hpath Hscan Hrepo).
    rewrite (resolveView_graph _ _ _ _ Htok Hgraph), run_graphDetailView.
    fold g. unfold ask in H1, H2, H3. now rewrite H1, H2, H3.
  - repeat split.
    + exact (includes_between
               (LF ++ "        SELECT ?subject ?predicate ?object" ++ LF
                ++ "        ")
               "FROM <" g ">" _).
    + exact (includes_between
               (LF ++ "        PREFIX rdf: <http://www.w3.org/1999/02/22-rdf-syntax-ns#>"
                ++ LF ++ "        SELECT (COUNT(" ++ "*"
                ++ ") as ?triples) (COUNT(DISTINCT ?s) as ?subjects) (COUNT(DISTINCT ?p) as ?predicates)"
                ++ LF ++ "        ")
               "FROM <" g ">" _).
    + exact (includes_between
               (LF ++ "        PREFIX rdf: <http://www.w3.org/1999/02/22-rdf-syntax-ns#>"
                ++ LF
                ++ "        PREFIX rdfs: <http://www.w3.org/2000/01/rdf-schema#>"
                ++ LF ++ "        PREFIX owl: <http://www.w3.org/2002/07/owl#>"
                ++ LF ++ "        SELECT DISTINCT ?class" ++ LF ++ "        ")
               "FROM <" g ">" _).
Qed.

End Coverage.

(** ** The executor on its own *)

(** X23: one call of [executeSparqlQuery] makes one request.  It returns
    only what a successful response parses to; when it throws, it has
    written the error to the console exactly once, after the request, and
    throws that same error. *)
Theorem X23_executor_one_request_failure_logged_once
        (cfg : Config) (js : Platform) (query : JsVal) (accept : string)
        (net : Network) (n : nat) :
  let init := queryRequest cfg js query accept in
  let events := fst (run (executeSparqlQuery cfg js query accept) net n) in
  let outcome := snd (run (executeSparqlQuery cfg js query accept) net n) in
  (forall result,
     outcome = Normal result ->
     events = [EFetch (repositoryUrl cfg) init]
     /\ exists response,
          net n (repositoryUrl cfg) init = Resolved response
          /\ ok response = true /\ json response = Normal result)
  /\
  (forall e,
     outcome = Throw e ->
     events = [EFetch (repositoryUrl cfg) init;
               EConsoleError "Error executing SPARQL query:" e]).
Proof.
  cbv zeta. rewrite run_executeSparqlQuery. unfold queryOutcome.
  destruct (net n _ _) as [e|response]; simpl.
  - split; [discriminate|]. now intros e' [= <-].
  - destruct (ok response) eqn:Hok; simpl.
    + destruct (json response) as [result|e] eqn:Hjson; simpl.
      * split; [|discriminate]. intros result' [= <-].
        split; [reflexivity|]. now exists response.
      * split; [discriminate|]. now intros e' [= <-].
    + split; [discriminate|]. now intros e' [= <-].
Qed.

(** ** Start-up *)

(** X13: the environment comes before the command line.  A non-empty
    GRAPHDB_ENDPOINT or GRAPHDB_REPOSITORY is used whatever the arguments
    are; when the variable is unset or empty, the first, respectively
    second, argument after the script is used if it is non-empty, and else
    the default: http://localhost:7200 for the endpoint, the empty name for
    the repository.  The four credentials come from the environment alone. *)
Theorem X13_environment_before_arguments
        (env : string -> option string) (argv : list string) :
  (forall e, env "GRAPHDB_ENDPOINT" = Some e -> e <> "" ->
             endpoint (loadConfig env argv) = e)
  /\ (forall r, env "GRAPHDB_REPOSITORY" = Some r -> r <> "" ->
                repository (loadConfig env argv) = r)
  /\ (env "GRAPHDB_ENDPOINT" = None \/ env "GRAPHDB_ENDPOINT" = Some "" ->
      endpoint (loadConfig env argv)
      = match nth_error argv 2 with
        | Some arg => if arg =? "" then "http://localhost:7200" else arg
        | None => "http://localhost:7200"
        end)
  /\ (env "GRAPHDB_REPOSITORY" = None \/ env "GRAPHDB_REPOSITORY" = Some "" ->
      repository (loadConfig env argv)
      = match nth_error argv 3 with
        | Some arg => arg
        | None => ""
        end)
  /\ (forall argv',
        username (loadConfig env argv) = username (loadConfig env argv')
        /\ password (loadConfig env argv) = password (loadConfig env argv')
        /\ cfAccessClientId (loadConfig env argv)
           = cfAccessClientId (loadConfig env argv')
        /\ cfAccessClientSecret (loadConfig env argv)
           = cfAccessClientSecret (loadConfig env argv')).
Proof.
  unfold loadConfig; cbv zeta. rewrite !nth_error_skipn.
  cbn [endpoint repository username password cfAccessClientId
       cfAccessClientSecret Nat.add].
  generalize (nth_error argv 2) (nth_error argv 3); intros first second.
  unfold js_or_default, js_or.
  repeat apply conj.
  - intros e -> Hne. apply String.eqb_neq in Hne. now rewrite Hne, Hne.
  - intros r -> Hne. apply String.eqb_neq in Hne. now rewrite Hne, Hne.
  - intros [-> | ->]; simpl; (destruct first as [arg|]; [|reflexivity]);
      destruct (arg =? "") eqn:E; rewrite ?E; reflexivity.
  - intros [-> | ->]; simpl; (destruct second as [arg|]; [|reflexivity]);
      (destruct (arg =? "") eqn:E; rewrite ?E; [|reflexivity]);
      apply String.eqb_eq in E; now subst.
  - intros argv'. repeat split.
Qed.

(** ** The further properties at work on the demo server *)

Lemma X3_read_returns_one_json_item_witness :
  exists t,
    snd (run (readResource demoConfig demoPlatform
                "graphdb://localhost:7200/repository/demo/stats")
           statsNetwork 0)
    = Normal {| contents :=
                  [ {| rc_uri := "graphdb://localhost:7200/repository/demo/stats";
                       rc_mimeType := "application/json";
                       rc_text := t |} ] |}.
Proof.
  destruct (X3_read_returns_one_json_item demoConfig demoPlatform
              "graphdb://localhost:7200/repository/demo/stats" statsNetwork 0
              {| contents :=
                   [ {| rc_uri :=
                          "graphdb://localhost:7200/repository/demo/stats";
                        rc_mimeType := "application/json";
                        rc_text := "statistics:subjects,graphs" |} ] |}
              eq_refl) as [t Ht].
  exists t. simpl in Ht. rewrite <- Ht. reflexivity.
Defined.

Lemma X4_tool_returns_one_text_item_witness :
  exists t,
    option_map content
      (match snd (run (callTool demoConfig demoPlatform "sparqlQuery"
                         (Some [("query", JStr "SELECT * WHERE { ?s ?p ?o }");
                                ("format", JStr "csv")]))
                    csvNetwork 0) with
       | Normal r => Some r
       | Throw _ => None
       end)
    = Some [ {| tc_type := "text"; tc_text := t |} ].
Proof.
  destruct (X4_tool_returns_one_text_item demoConfig demoPlatform
              "sparqlQuery"
              (Some [("query", JStr "SELECT * WHERE { ?s ?p ?o }");
                     ("format", JStr "csv")])
              csvNetwork 0 (toolResult "s,p,o" false) eq_refl) as [t Ht].
  exists t. simpl in Ht. rewrite <- Ht. reflexivity.
Defined.

Lemma X5_query_tool_reports_http_status_witness :
  snd (run (callTool demoConfig demoPlatform "sparqlQuery"
              (Some [("query", JStr "SELECT * WHERE { ?s ?p ?o }");
                     ("graph", JStr "urn:g");
                     ("format", JStr "xml")]))
         downNetwork 0)
  = Normal (toolResult
              "Error executing query: GraphDB query failed: 500 Internal Server Error"
              true).
Proof.
  exact (X5_query_tool_reports_http_status demoConfig demoPlatform
           (Some [("query", JStr "SELECT * WHERE { ?s ?p ?o }");
                  ("graph", JStr "urn:g");
                  ("format", JStr "xml")])
           (JStr "SELECT * FROM <urn:g> WHERE { ?s ?p ?o }")
           downNetwork 0
           {| ok := false; status := 500;
              statusText := "Internal Server Error";
              json := Throw (mkJsError "SyntaxError"
                               "Unexpected end of JSON input");
              text := Normal "" |}
           eq_refl eq_refl eq_refl).
Defined.




Lemma X13_environment_before_arguments_witness :
  demoEnv "GRAPHDB_REPOSITORY" = Some "fromEnv"
  /\ repository (loadConfig demoEnv
                   ["node"; "index.js"; "http://example.org:7200"; "fromArgs"])
     = "fromEnv"
  /\ demoEnv "GRAPHDB_ENDPOINT" = None
  /\ endpoint (loadConfig demoEnv
                 ["node"; "index.js"; "http://example.org:7200"; "fromArgs"])
     = "http://example.org:7200".
Proof.
  destruct (X13_environment_before_arguments demoEnv
              ["node"; "index.js"; "http://example.org:7200"; "fromArgs"])
    as (_ & Hrepo & Hend & _ & _).
  split; [reflexivity|].
  split; [apply (Hrepo "fromEnv" eq_refl); discriminate|].
  split; [reflexivity|].
  apply Hend. left. reflexivity.
Defined.

Lemma X15_statistics_on_results_without_rows_witness :
  snd (run (readResource demoConfig demoPlatform
              "graphdb://localhost:7200/repository/demo/stats")
         noCountNetwork 0)
  = Throw (TypeError "Cannot read properties of undefined (reading 'graphs')").
Proof.
  destruct (X15_statistics_on_results_without_rows demoConfig demoPlatform
              "graphdb://localhost:7200/repository/demo/stats"
              "/repository/demo/stats"
              {| repoName := "demo"; graphUri := ""; resourceType := "stats" |}
              noCountNetwork 0
              (rows ["subjects"] [ [("subjects", count "7")] ])
              (rows ["graphs"] [])
              eq_refl eq_refl ltac:(discriminate) eq_refl eq_refl eq_refl)
    as (_ & Hempty).
  exact (proj1 (Hempty eq_refl)).
Defined.

Lemma X16_listing_row_without_graph_empties_listing_witness :
  snd (run (listResources demoConfig demoPlatform) oddRowNetwork 0)
  = Normal {| resources := [] |}.
Proof.
  apply (X16_listing_row_without_graph_empties_listing
           demoConfig demoPlatform oddRowNetwork 0
           (rows ["graph"] [ [("graph", iri "urn:a")]; [("g", iri "urn:b")] ])
           [("g", iri "urn:b")]).
  - discriminate.
  - reflexivity.
  - right; left; reflexivity.
  - reflexivity.
Defined.


Lemma X18_read_without_view_or_graph_witness :
  run (readResource demoConfig demoPlatform
         "graphdb://localhost:7200/repository/demo")
    twoGraphs 0
  = ([EConsoleError "Error reading resource:" (Error "Invalid resource URI")],
     Throw (Error "Invalid resource URI")).
Proof.
  apply (X18_read_without_view_or_graph demoConfig demoPlatform
           "graphdb://localhost:7200/repository/demo"
           "/repository/demo"
           {| repoName := "demo"; graphUri := ""; resourceType := "" |}
           twoGraphs 0 eq_refl eq_refl ltac:(discriminate) eq_refl).
  simpl. intros [H | [H | []]]; discriminate.
Defined.




Lemma X22_graph_detail_three_scoped_queries_witness :
  answered (fst (run (readResource demoConfig demoPlatform
                        "graphdb://localhost:7200/repository/demo/graph/urn:a")
                   twoGraphs 0)) = 3
  /\ includes (ontologyQuery "urn:a") "FROM <urn:a>" = true.
Proof.
  destruct (X22_graph_detail_three_scoped_queries demoConfig demoPlatform
              "graphdb://localhost:7200/repository/demo/graph/urn:a"
              "/repository/demo/graph/urn:a"
              {| repoName := "demo"; graphUri := "urn:a"; resourceType := "" |}
              twoGraphs 0
              (rows ["graph"] [ [("graph", iri "urn:a")];
                                [("graph", iri "urn:b")] ])
              (rows ["graph"] [ [("graph", iri "urn:a")];
                                [("graph", iri "urn:b")] ])
              (rows ["graph"] [ [("graph", iri "urn:a")];
                                [("graph", iri "urn:b")] ])
              eq_refl eq_refl ltac:(discriminate) eq_refl ltac:(discriminate)
              eq_refl eq_refl eq_refl)
    as (Hrun & _ & _ & Hscoped).
  split; [rewrite Hrun; reflexivity | exact Hscoped].
Defined.

Lemma X23_executor_one_request_failure_logged_once_witness :
  fst (run (executeSparqlQuery demoConfig demoPlatform
              (JStr sampleDataQuery) default_accept) downNetwork 0)
  = [EFetch (repositoryUrl demoConfig)
       (queryRequest demoConfig demoPlatform (JStr sampleDataQuery)
          default_accept);
     EConsoleError "Error executing SPARQL query:"
       (Error "GraphDB query failed: 500 Internal Server Error")].
Proof.
  destruct (X23_executor_one_request_failure_logged_once
              demoConfig demoPlatform (JStr sampleDataQuery) default_accept
              downNetwork 0)
    as (_ & Hthrow).
  exact (Hthrow (Error "GraphDB query failed: 500 Internal Server Error")
           eq_refl).
Defined.
